(** * mysql-operator: cluster defaulting, topology resolution and the
      reconciliation loop

    A shallow embedding of

    - [pkg/apis/mysql/v1alpha1/cluster.go]: [UpdateDefaults] for the cluster
      spec, the pod spec and the volume spec, the derived resource names and
      host names, [GetMasterHost] and [GetHealtySlaveHost];
    - [pkg/mysqlcluster/cluster.go]: the component table and [Sync].

    Go maps are finite maps ([gmap]), [int64] values are integers, [float64]
    arithmetic is the IEEE 754 binary64 specification of the standard
    library ([SpecFloat]), and the calls that leave the process (the five
    sync functions, the event recorder, the orchestrator client, the log)
    are the nodes of a program tree that is run against an arbitrary
    environment while the calls are recorded in a trace. *)

From Stdlib Require Import ZArith Lia Bool.
From Stdlib Require Import DecimalString.
From Stdlib Require DecimalPos DecimalZ.
From Stdlib Require Import Floats.SpecFloat.
From stdpp Require Import base strings list gmap fin_maps.

Local Open Scope string_scope.
Local Open Scope Z_scope.

(** ** Go library pieces *)

(** [len(s)] of a string or a map, as far as the code uses it: a test
    against zero. *)
Definition len_is_0 (s : string) : bool :=
  match s with EmptyString => true | String _ _ => false end.

Module strconv.

(** [strconv.FormatInt(v, 10)], also the [%d] verb of [fmt]. *)
Definition FormatInt (v : Z) : string := NilZero.string_of_int (Z.to_int v).

End strconv.

(** [float64] and the two conversions the defaulting code performs. *)
Module float64.

Definition prec : Z := 53.
Definition emax : Z := 1024.

(** [float64(v)] of an integer: rounded to nearest, ties to even. *)
Definition of_int64 (v : Z) : spec_float := binary_normalize prec emax v 0 false.

(** The product of two [float64] values. *)
Definition mul (x y : spec_float) : spec_float := SFmul prec emax x y.

(** The constants [0.5] and [0.75]: both are binary64 numbers. *)
Definition half : spec_float := S754_finite false (2 ^ 52) (-53).
Definition three_quarters : spec_float := S754_finite false (3 * 2 ^ 51) (-53).

Definition min_int64 : Z := - 2 ^ 63.
Definition max_int64 : Z := 2 ^ 63 - 1.

(** [int64(x)]: the fraction is discarded (truncation toward zero).  Where
    the value does not fit, or is not a number, Go leaves the result to the
    implementation; the amd64 answer is the smallest [int64]. *)
Definition to_int64 (x : spec_float) : Z :=
  match x with
  | S754_zero _ => 0
  | S754_finite s m e =>
      let v := Z.shiftl (Zpos m) e in
      let v := if s then - v else v in
      if (min_int64 <=? v) && (v <=? max_int64) then v else min_int64
  | _ => min_int64
  end.

(** A shifted mantissa with nothing shifted out so far. *)
Definition exact_shr (m : Z) : shr_record := {| shr_m := m; shr_r := false; shr_s := false |}.

(** The 53 digit mantissa of a positive integer below [2 ^ 53]. *)
Definition norm53 (z : Z) : positive := Z.to_pos (z * 2 ^ (53 - Zdigits2 z)).

End float64.

(** [k8s.io/apimachinery/pkg/api/resource] and the resource lists of
    [k8s.io/api/core/v1]. *)
Module resource.

(** A [Quantity] is a fixed point number; thousandths are enough for the
    literals of this code (["200m"], ["1Gi"]). *)
Record Quantity := { milli : Z }.

(** [q.Value()]: the quantity rounded up to an integer, away from zero. *)
Definition Value (q : Quantity) : Z :=
  if 0 <=? milli q then (milli q + 999) / 1000 else - ((- milli q + 999) / 1000).

(** A quantity of [v] whole units (bytes for memory). *)
Definition of_units (v : Z) : Quantity := {| milli := 1000 * v |}.

Definition zero : Quantity := {| milli := 0 |}.

Definition ResourceCPU : string := "cpu".
Definition ResourceMemory : string := "memory".
Definition ResourceStorage : string := "storage".

(** [ResourceList.Memory()]: a pointer to the entry under ["memory"], and
    a pointer to a zero quantity when there is none; never [nil]. *)
Definition Memory (rl : gmap string Quantity) : option Quantity :=
  match rl !! ResourceMemory with
  | Some val => Some val
  | None => Some zero
  end.

(** [core.ResourceRequirements] of [k8s.io/api/core/v1]: two resource
    lists. *)
Record ResourceRequirements := {
  Limits : gmap string Quantity;
  Requests : gmap string Quantity
}.

End resource.

(** [pkg/util/options]: the fields of the option set that this code reads. *)
Module options.

Record Options := {
  MysqlImage : string;
  MysqlImageTag : string;
  HelperImage : string;
  MetricsExporterImage : string;
  ImagePullPolicy : string;
  OrchestratorUri : string
}.

End options.

(** ** The outside world *)

(** [pkg/util/orchestrator]: what the client returns about an instance.
    [SecondsBehindMaster] is a [sql.NullInt64]. *)
Module orc.

Record NullInt64 := { Int64 : Z; Valid : bool }.
Record InstanceKey := { Hostname : string }.
Record Instance := { Key : InstanceKey; SecondsBehindMaster : NullInt64 }.

End orc.

(** The event constants of the api package. *)
Module events.

(** Modelled from the spec: the constants [EventNormal] and [EventWarning]
    are declared outside [cluster.go]; the event recorder takes a severity
    in {Normal, Warning}. *)
Inductive EventType := EventNormal | EventWarning.

(** Modelled from the spec: the reason constants are declared outside
    [cluster.go]; each resource kind has a fixed failure kind and a fixed
    update kind. *)
Inductive EventReason :=
| EventReasonDbSecretFailed | EventReasonDbSecretUpdated
| EventReasonConfigMapFailed | EventReasonConfigMapUpdated
| EventReasonServiceFailed | EventReasonServiceUpdated
| EventReasonSFSFailed | EventReasonSFSUpdated
| EventReasonCronJobFailed | EventReasonCronJobUpdated.

End events.

(** Programs that call out of the process, and their runs. *)
Module effects.
Import orc events.

(** The five sync methods of the cluster factory; their bodies are in
    other files and are opaque here. *)
Inductive SyncFnName :=
| syncClusterSecret | syncConfigMysqlMap | syncHeadlessService
| syncStatefulSet | syncBackupCronJob.

#[global] Instance SyncFnName_eq_dec : EqDecision SyncFnName.
Proof. solve_decision. Defined.

Inductive Severity := InfoV2 | Warning | Error.

(** A Go [error] is its message; [nil] is [None].  A call that returns
    [(value, error)] with a value that is only read when the error is
    [nil] returns a sum. *)
Inductive prog (A : Type) : Type :=
| Ret (a : A)
| CallSyncFn (fn : SyncFnName) (k : string * option string -> prog A)
| RecEvent (ty : EventType) (reason : EventReason) (msg : string) (k : prog A)
| Glog (sev : Severity) (msg : string) (k : prog A)
| OrcDiscover (uri host : string) (port : Z) (k : option string -> prog A)
| OrcMaster (uri cluster : string) (k : Instance + string -> prog A)
| OrcClusterOSCReplicas (uri cluster : string) (k : list Instance + string -> prog A).

Arguments Ret {A} a.
Arguments CallSyncFn {A} fn k.
Arguments RecEvent {A} ty reason msg k.
Arguments Glog {A} sev msg k.
Arguments OrcDiscover {A} uri host port k.
Arguments OrcMaster {A} uri cluster k.
Arguments OrcClusterOSCReplicas {A} uri cluster k.

(** One entry of a trace: a call with what it returned. *)
Inductive action :=
| ASyncFn (fn : SyncFnName) (res : string * option string)
| AEvent (ty : EventType) (reason : EventReason) (msg : string)
| AGlog (sev : Severity) (msg : string)
| ADiscover (uri host : string) (port : Z) (res : option string)
| AMaster (uri cluster : string) (res : Instance + string)
| AReplicas (uri cluster : string) (res : list Instance + string).

(** An environment answers the calls and may change its state [W] at
    each of them. *)
Record Env (W : Type) := {
  env_syncFn : SyncFnName -> W -> (string * option string) * W;
  env_Discover : string -> string -> Z -> W -> option string * W;
  env_Master : string -> string -> W -> (Instance + string) * W;
  env_ClusterOSCReplicas : string -> string -> W -> (list Instance + string) * W
}.

Arguments env_syncFn {W} _ _ _.
Arguments env_Discover {W} _ _ _ _ _.
Arguments env_Master {W} _ _ _ _.
Arguments env_ClusterOSCReplicas {W} _ _ _ _.

(** The run of a program: its result, the final state, and the trace. *)
Fixpoint run {W A : Type} (E : Env W) (p : prog A) (w : W) : A * W * list action :=
  match p with
  | Ret a => (a, w, [])
  | CallSyncFn fn k =>
      let '(r, w1) := env_syncFn E fn w in
      let '(a, w2, t) := run E (k r) w1 in
      (a, w2, ASyncFn fn r :: t)
  | RecEvent ty reason msg k =>
      let '(a, w2, t) := run E k w in
      (a, w2, AEvent ty reason msg :: t)
  | Glog sev msg k =>
      let '(a, w2, t) := run E k w in
      (a, w2, AGlog sev msg :: t)
  | OrcDiscover uri host port k =>
      let '(r, w1) := env_Discover E uri host port w in
      let '(a, w2, t) := run E (k r) w1 in
      (a, w2, ADiscover uri host port r :: t)
  | OrcMaster uri cluster k =>
      let '(r, w1) := env_Master E uri cluster w in
      let '(a, w2, t) := run E (k r) w1 in
      (a, w2, AMaster uri cluster r :: t)
  | OrcClusterOSCReplicas uri cluster k =>
      let '(r, w1) := env_ClusterOSCReplicas E uri cluster w in
      let '(a, w2, t) := run E (k r) w1 in
      (a, w2, AReplicas uri cluster r :: t)
  end.

Definition result {W A : Type} (E : Env W) (p : prog A) (w : W) : A := (run E p w).1.1.
Definition trace {W A : Type} (E : Env W) (p : prog A) (w : W) : list action := (run E p w).2.

(** What a trace shows. *)
Definition is_orc_call (a : action) : bool :=
  match a with
  | ADiscover _ _ _ _ | AMaster _ _ _ | AReplicas _ _ _ => true
  | _ => false
  end.

Definition sync_calls (t : list action) : list (SyncFnName * (string * option string)) :=
  omap (fun a => match a with ASyncFn fn r => Some (fn, r) | _ => None end) t.

Definition warning_events (t : list action) : list (EventReason * string) :=
  omap (fun a => match a with AEvent EventWarning r m => Some (r, m) | _ => None end) t.

Definition discover_calls (t : list action) : list (string * string * Z) :=
  omap (fun a => match a with ADiscover u h p _ => Some (u, h, p) | _ => None end) t.

Definition events_of (t : list action) : list (EventType * EventReason * string) :=
  omap (fun a => match a with AEvent ty r m => Some (ty, r, m) | _ => None end) t.

Definition orc_calls (t : list action) : list action :=
  omap (fun a => if is_orc_call a then Some a else None) t.

Definition warnings_logged (t : list action) : list string :=
  omap (fun a => match a with AGlog Warning m => Some m | _ => None end) t.

End effects.

(** ** Package [v1alpha1]: the cluster definition and its defaults *)
Module v1alpha1.
Import resource options.

(** The types are declared in [types.go]; the fields below are the ones
    the code of [cluster.go] reads or writes.  [PodAntiAffinity] is a
    pointer in [core.Affinity], [nil] being [None]. *)
Record PodAffinityTerm := {
  TopologyKey : string;
  MatchLabels : gmap string string
}.

Record WeightedPodAffinityTerm := {
  Weight : Z;
  PodAffinityTerm_ : PodAffinityTerm
}.

Record PodAntiAffinity := {
  PreferredDuringSchedulingIgnoredDuringExecution : list WeightedPodAffinityTerm
}.

Record Affinity := {
  PodAntiAffinity_ : option PodAntiAffinity
}.

Record PodSpec := {
  ImagePullPolicy : string;
  Resources : ResourceRequirements;
  Affinity_ : Affinity
}.

Record VolumeSpec := {
  AccessModes : list string;
  VolumeResources : ResourceRequirements
}.

Record ClusterSpec := {
  SecretName : string;
  MysqlVersion : string;
  MysqlConf : gmap string string;
  PodSpec_ : PodSpec;
  VolumeSpec_ : VolumeSpec
}.

Record ClusterStatus := {
  ReadyNodes : Z
}.

Record MysqlCluster := {
  Name : string;
  Namespace : string;
  Spec : ClusterSpec;
  Status : ClusterStatus
}.

Definition KB : Z := Z.shiftl 1 10.
Definition MB : Z := Z.shiftl 1 20.
Definition GB : Z := Z.shiftl 1 30.

Definition resourceRequestCPU : Quantity := {| milli := 200 |}.
Definition resourceRequestMemory : Quantity := of_units (2 ^ 30).
Definition resourceStorage : Quantity := of_units (2 ^ 30).

Definition ReadWriteOnce : string := "ReadWriteOnce".

Definition GetLabels (c : MysqlCluster) : gmap string string :=
  <["mysql_cluster" := Name c]> (<["app" := "mysql-operator"]> ∅).

(** The two composite literals [apiv1.ResourceRequirements{Requests: ...}]:
    a field that the literal does not name, [Limits], is empty. *)
Definition defaultPodResources : ResourceRequirements :=
  {| Limits := ∅;
     Requests := <[ResourceMemory := resourceRequestMemory]>
                   (<[ResourceCPU := resourceRequestCPU]> ∅) |}.

Definition defaultVolumeResources : ResourceRequirements :=
  {| Limits := ∅;
     Requests := <[ResourceStorage := resourceStorage]> ∅ |}.

(** The soft anti-affinity rule that is installed when there is none; the
    other fields of [core.Affinity] are not touched and are left out. *)
Definition defaultAffinity (cluster : MysqlCluster) : Affinity :=
  {| PodAntiAffinity_ := Some
       {| PreferredDuringSchedulingIgnoredDuringExecution :=
            [ {| Weight := 100;
                 PodAffinityTerm_ :=
                   {| TopologyKey := "kubernetes.io/hostname";
                      MatchLabels := GetLabels cluster |} |} ] |} |}.

(** [PodSpec.UpdateDefaults]; the returned error is always [nil]. *)
Definition PodSpec_UpdateDefaults (ps : PodSpec) (opt : Options)
    (cluster : MysqlCluster) : PodSpec * option string :=
  let ps :=
    if len_is_0 (ImagePullPolicy ps)
    then {| ImagePullPolicy := options.ImagePullPolicy opt;
            Resources := Resources ps; Affinity_ := Affinity_ ps |}
    else ps in
  let ps :=
    if decide (size (Requests (Resources ps)) = 0%nat)
    then {| ImagePullPolicy := ImagePullPolicy ps;
            Resources := defaultPodResources;
            Affinity_ := Affinity_ ps |}
    else ps in
  let ps :=
    match PodAntiAffinity_ (Affinity_ ps) with
    | None =>
        {| ImagePullPolicy := ImagePullPolicy ps;
           Resources := Resources ps;
           Affinity_ := defaultAffinity cluster |}
    | Some _ => ps
    end in
  (ps, None).

(** [VolumeSpec.UpdateDefaults]. *)
Definition VolumeSpec_UpdateDefaults (vs : VolumeSpec) : VolumeSpec * option string :=
  let vs :=
    match AccessModes vs with
    | [] => {| AccessModes := [ReadWriteOnce]; VolumeResources := VolumeResources vs |}
    | _ :: _ => vs
    end in
  let vs :=
    if decide (size (Requests (VolumeResources vs)) = 0%nat)
    then {| AccessModes := AccessModes vs;
            VolumeResources := defaultVolumeResources |}
    else vs in
  (vs, None).

(** The size of the buffer pool for a memory request of [mem] bytes. *)
Definition bufferSize (mem : Z) : Z :=
  if mem <? GB then 128 * MB
  else if mem <=? 4 * GB
       then float64.to_int64 (float64.mul (float64.of_int64 mem) float64.half)
       else float64.to_int64 (float64.mul (float64.of_int64 mem) float64.three_quarters).

(** The size of a redo log file for a memory request of [mem] bytes. *)
Definition logFileSize (mem : Z) : Z :=
  if mem <? GB then 48 * MB
  else if mem <=? 4 * GB then 128 * MB
  else if mem <=? 8 * GB then 512 * GB
  else if mem <=? 16 * GB then 1 * GB
  else 2 * GB.

Definition with_MysqlConf (c : ClusterSpec) (conf : gmap string string) : ClusterSpec :=
  {| SecretName := SecretName c; MysqlVersion := MysqlVersion c;
     MysqlConf := conf; PodSpec_ := PodSpec_ c; VolumeSpec_ := VolumeSpec_ c |}.

(** [ClusterSpec.UpdateDefaults]: the spec after the call and the error. *)
Definition ClusterSpec_UpdateDefaults (c : ClusterSpec) (opt : Options)
    (cluster : MysqlCluster) : ClusterSpec * option string :=
  let c :=
    if len_is_0 (MysqlVersion c)
    then {| SecretName := SecretName c; MysqlVersion := MysqlImageTag opt;
            MysqlConf := MysqlConf c; PodSpec_ := PodSpec_ c;
            VolumeSpec_ := VolumeSpec_ c |}
    else c in
  let '(ps, err) := PodSpec_UpdateDefaults (PodSpec_ c) opt cluster in
  let c := {| SecretName := SecretName c; MysqlVersion := MysqlVersion c;
              MysqlConf := MysqlConf c; PodSpec_ := ps;
              VolumeSpec_ := VolumeSpec_ c |} in
  match err with
  | Some e => (c, Some e)
  | None =>
      (* [make(MysqlConf)] for an empty map: still the empty map *)
      let c := if decide (size (MysqlConf c) = 0%nat) then with_MysqlConf c ∅ else c in
      let c :=
        match MysqlConf c !! "innodb-buffer-pool-size" with
        | Some _ => c
        | None =>
            match Memory (Requests (Resources (PodSpec_ c))) with
            | Some mem =>
                with_MysqlConf c
                  (<["innodb-buffer-pool-size" :=
                       strconv.FormatInt (bufferSize (Value mem))]> (MysqlConf c))
            | None => c
            end
        end in
      let c :=
        match MysqlConf c !! "innodb-log-file-size" with
        | Some _ => c
        | None =>
            match Memory (Requests (Resources (PodSpec_ c))) with
            | Some mem =>
                with_MysqlConf c
                  (<["innodb-log-file-size" :=
                       strconv.FormatInt (logFileSize (Value mem))]> (MysqlConf c))
            | None => c
            end
        end in
      let '(vs, err) := VolumeSpec_UpdateDefaults (VolumeSpec_ c) in
      ({| SecretName := SecretName c; MysqlVersion := MysqlVersion c;
          MysqlConf := MysqlConf c; PodSpec_ := PodSpec_ c;
          VolumeSpec_ := vs |}, err)
  end.

(** The memory request that the sizing code reads from a pod spec. *)
Definition memoryValue (ps : PodSpec) : Z :=
  Value (default zero (Requests (Resources ps) !! ResourceMemory)).

(** The configuration once the two sizing keys are filled in for a
    memory request of [mem] bytes; keys that are present are kept. *)
Definition defaultedConf (conf : gmap string string) (mem : Z) : gmap string string :=
  let conf :=
    match conf !! "innodb-buffer-pool-size" with
    | Some _ => conf
    | None => <["innodb-buffer-pool-size" := strconv.FormatInt (bufferSize mem)]> conf
    end in
  match conf !! "innodb-log-file-size" with
  | Some _ => conf
  | None => <["innodb-log-file-size" := strconv.FormatInt (logFileSize mem)]> conf
  end.

(** [MysqlCluster.UpdateDefaults]: the spec is defaulted in place. *)
Definition UpdateDefaults (c : MysqlCluster) (opt : Options) : MysqlCluster * option string :=
  let '(spec, err) := ClusterSpec_UpdateDefaults (Spec c) opt c in
  ({| Name := Name c; Namespace := Namespace c; Spec := spec; Status := Status c |}, err).

(** *** Names and topology *)

Import orc events effects.

(** [GetOrcUri] reads the package level option set, [opt], which is filled
    once from [options.GetOptions()]; the receiver is not read. *)
Definition GetOrcUri (opt : Options) (c : ClusterSpec) : string := OrchestratorUri opt.

Definition HeadlessSVC : string := "headless".
Definition StatefulSet : string := "mysql".
Definition ConfigMap : string := "config-files".
Definition BackupCronJob : string := "backup-cron".

(** The package level [GetNameForResource(name, clusterName)]. *)
Definition GetNameForResource_ (name clusterName : string) : string :=
  clusterName +:+ "-mysql".

(** The method: both arms of its switch make the same call. *)
Definition GetNameForResource (c : MysqlCluster) (name : string) : string :=
  GetNameForResource_ name (Name c).

Definition GetPodHostName (c : MysqlCluster) (p : Z) : string :=
  let pod := GetNameForResource c StatefulSet +:+ "-" +:+ strconv.FormatInt p in
  pod +:+ "." +:+ GetNameForResource c HeadlessSVC.

(** The loop of [GetHealtySlaveHost] over the replicas: every instance
    with a valid lag of at most five seconds overwrites [host]. *)
Fixpoint chooseReplica {A : Type} (replicas : list Instance) (host : string)
    (k : string -> prog A) : prog A :=
  match replicas with
  | [] => k host
  | r :: replicas' =>
      if Valid (SecondsBehindMaster r) && (Int64 (SecondsBehindMaster r) <=? 5)
      then Glog InfoV2
             ("[GetHealtySlaveHost]: Using orc we choses: " +:+ Hostname (Key r))
             (chooseReplica replicas' (Hostname (Key r)) k)
      else chooseReplica replicas' host k
  end.

Definition GetHealtySlaveHost (opt : Options) (c : MysqlCluster) : prog string :=
  if ReadyNodes (Status c) <? 1
  then
    Glog Warning "[GetHealtySlaveHost]: no ready nodes yet!"
      (Glog InfoV2 ("[GetHealtySlaveHost]: The slave host is: " +:+ GetPodHostName c 0)
         (Ret (GetPodHostName c 0)))
  else
    let host := GetPodHostName c (ReadyNodes (Status c) - 1) in
    let finish (host : string) : prog string :=
      Glog InfoV2 ("[GetHealtySlaveHost]: The slave host is: " +:+ host) (Ret host) in
    if negb (len_is_0 (GetOrcUri opt (Spec c)))
    then
      Glog InfoV2 "[GetHealtySlaveHost]: Use orchestrator to get slave host."
        (OrcClusterOSCReplicas (GetOrcUri opt (Spec c)) (Name c) (fun res =>
           match res with
           | inr err =>
               Glog Error ("[GetHealtySlaveHost] orc failed with: " +:+ err) (Ret host)
           | inl replicas => chooseReplica replicas host finish
           end))
    else finish host.

Definition GetMasterHost (opt : Options) (c : MysqlCluster) : prog string :=
  let masterHost := GetPodHostName c 0 in
  if negb (len_is_0 (GetOrcUri opt (Spec c)))
  then
    let orcClusterName := Name c +:+ "." +:+ Namespace c in
    OrcMaster (GetOrcUri opt (Spec c)) orcClusterName (fun res =>
      match res with
      | inl inst => Ret (Hostname (Key inst))
      | inr err =>
          Glog Warning
            ("Failed getting master for " +:+ orcClusterName +:+ ": " +:+ err
             +:+ ", falling back to default.")
            (Ret masterHost)
      end)
  else Ret masterHost.

(** *** Images and owner references *)

(** Like [GetOrcUri], the image getters read the package level option
    set. *)
Definition GetHelperImage (opt : Options) (c : ClusterSpec) : string := HelperImage opt.

Definition GetMetricsExporterImage (opt : Options) (c : ClusterSpec) : string :=
  MetricsExporterImage opt.

Definition GetMysqlImage (opt : Options) (c : ClusterSpec) : string :=
  MysqlImage opt +:+ ":" +:+ MysqlVersion c.

(** [metav1.OwnerReference], with the fields that [AsOwnerReference] sets;
    [Controller] is a pointer to a boolean. *)
Record OwnerReference := {
  APIVersion : string;
  Kind : string;
  RefName : string;
  RefUID : string;
  Controller : option bool
}.

Section OwnerReference.
(** [SchemeGroupVersion.String()] and [MysqlClusterKind] are declared in
    other files of the package; [UID] is the field of the object's
    metadata, which the record above leaves out. *)
Variable SchemeGroupVersion_String : string.
Variable MysqlClusterKind : string.
Variable UID : MysqlCluster -> string.

Definition AsOwnerReference (c : MysqlCluster) : OwnerReference :=
  let trueVar := true in
  {| APIVersion := SchemeGroupVersion_String;
     Kind := MysqlClusterKind;
     RefName := Name c;
     RefUID := UID c;
     Controller := Some trueVar |}.

End OwnerReference.

End v1alpha1.

(** ** Package [mysqlcluster]: the cluster factory *)
Module mysqlcluster.
Import options orc events effects.
Import v1alpha1.

Record cFactory := {
  cluster : MysqlCluster;
  namespace : string;
  configHash : string;
  secretHash : string
}.

Definition statusUpToDate : string := "up-to-date".
Definition statusCreated : string := "created".
Definition statusUpdated : string := "updated".
Definition statusFailed : string := "faild".
Definition statusOk : string := "ok".
Definition statusSkip : string := "skip".

Record component := {
  alias : string;
  name : string;
  syncFn : SyncFnName;
  reasonFailed : EventReason;
  reasonUpdated : EventReason
}.

Definition getComponents (f : cFactory) : list component :=
  [ {| alias := "cluster-secret";
       name := SecretName (Spec (cluster f));
       syncFn := syncClusterSecret;
       reasonFailed := EventReasonDbSecretFailed;
       reasonUpdated := EventReasonDbSecretUpdated |};
    {| alias := "config-map";
       name := GetNameForResource (cluster f) ConfigMap;
       syncFn := syncConfigMysqlMap;
       reasonFailed := EventReasonConfigMapFailed;
       reasonUpdated := EventReasonConfigMapUpdated |};
    {| alias := "headless-service";
       name := GetNameForResource (cluster f) HeadlessSVC;
       syncFn := syncHeadlessService;
       reasonFailed := EventReasonServiceFailed;
       reasonUpdated := EventReasonServiceUpdated |};
    {| alias := "statefulset";
       name := GetNameForResource (cluster f) StatefulSet;
       syncFn := syncStatefulSet;
       reasonFailed := EventReasonSFSFailed;
       reasonUpdated := EventReasonSFSUpdated |};
    {| alias := "backup-cron-job";
       name := GetNameForResource (cluster f) BackupCronJob;
       syncFn := syncBackupCronJob;
       reasonFailed := EventReasonCronJobFailed;
       reasonUpdated := EventReasonCronJobUpdated |} ].

Definition getHostForReplica (f : cFactory) (no : Z) : string :=
  GetNameForResource (cluster f) StatefulSet +:+ "-" +:+ strconv.FormatInt no
  +:+ "." +:+ GetNameForResource (cluster f) HeadlessSVC
  +:+ "." +:+ Namespace (cluster f).

(** The host names of the members from index [i] on, [n] of them. *)
Definition hosts_from (f : cFactory) (i : Z) (n : nat) : list string :=
  map (fun j : nat => getHostForReplica f (i + Z.of_nat j)) (seq 0 n).

(** The wrapped error of a failed component. *)
Definition syncFailed (comp : component) (err : string) : string :=
  name comp +:+ " sync failed: " +:+ err.

Section Sync.
(** [MysqlPort] is declared in another file of the package. *)
Variable MysqlPort : Z.
(** The option set of the api package, read by [GetOrcUri]. *)
Variable opt : Options.

(** The first loop of [Sync], over the components; [rest] is the code
    after the loop. *)
Fixpoint syncComponents (comps : list component) (rest : prog (option string))
    : prog (option string) :=
  match comps with
  | [] => rest
  | comp :: comps' =>
      CallSyncFn (syncFn comp) (fun '(state, err) =>
        match err with
        | Some e =>
            Glog Warning
              ("[" +:+ alias comp +:+ "]: failed syncing " +:+ name comp
               +:+ ": %!(EXTRA string=" +:+ e +:+ ")")
              (let err := syncFailed comp e in
               RecEvent EventWarning (reasonFailed comp) err (Ret (Some err)))
        | None =>
            Glog InfoV2
              ("[" +:+ alias comp +:+ "]: " +:+ name comp +:+ " ... (" +:+ state +:+ ")")
              (if String.eqb state statusCreated || String.eqb state statusUpdated
               then RecEvent EventNormal (reasonUpdated comp) "" (syncComponents comps' rest)
               else syncComponents comps' rest)
        end)
  end.

(** The second loop: [n] iterations are left, the next index is [i]. *)
Fixpoint discoverNodes (f : cFactory) (uri : string) (n : nat) (i : Z)
    (rest : prog (option string)) : prog (option string) :=
  match n with
  | O => rest
  | S n' =>
      let host := getHostForReplica f i in
      OrcDiscover uri host MysqlPort (fun err =>
        match err with
        | Some e =>
            Glog Warning
              ("Failed to register " +:+ host +:+ " with orchestrator: " +:+ e)
              (discoverNodes f uri n' (i + 1) rest)
        | None => discoverNodes f uri n' (i + 1) rest
        end)
  end.

(** The code of [Sync] after the first loop: the registration of the
    ready nodes and [return nil]. *)
Definition registration (f : cFactory) : prog (option string) :=
  if negb (len_is_0 (GetOrcUri opt (Spec (cluster f))))
  then discoverNodes f (GetOrcUri opt (Spec (cluster f)))
         (Z.to_nat (ReadyNodes (Status (cluster f)))) 0 (Ret None)
  else Ret None.

Definition Sync (f : cFactory) : prog (option string) :=
  syncComponents (getComponents f) (registration f).

End Sync.

(** [New]: the clients, the recorder and the option set are the
    environment of the runs; both hashes start as ["1"]. *)
Definition New (cluster : MysqlCluster) (ns : string) : cFactory :=
  {| cluster := cluster; namespace := ns; configHash := "1"; secretHash := "1" |}.

Section OwnerReferences.
Variable SchemeGroupVersion_String : string.
Variable MysqlClusterKind : string.
Variable UID : MysqlCluster -> string.

(** [getOwnerReferences(ors...)]: the two nested loops append to [rs]. *)
Definition getOwnerReferences (f : cFactory) (ors : list (list OwnerReference))
    : list OwnerReference :=
  let rs := [AsOwnerReference SchemeGroupVersion_String MysqlClusterKind UID (cluster f)] in
  fold_left (fun rs or => fold_left (fun rs o => (rs ++ [o])%list) or rs) ors rs.

End OwnerReferences.

(** The event that one iteration of the first loop of [Sync] records for a
    component whose sync function returned [res]. *)
Definition event_for (comp : component) (res : string * option string)
    : option (EventType * EventReason * string) :=
  match res.2 with
  | Some e => Some (EventWarning, reasonFailed comp, syncFailed comp e)
  | None =>
      if String.eqb res.1 statusCreated || String.eqb res.1 statusUpdated
      then Some (EventNormal, reasonUpdated comp, "")
      else None
  end.

End mysqlcluster.

(** ** What the specification says

    Definitions that follow the words of the specification; the theorems
    compare them with the code above. *)
Module spec.
Import orc.

Definition MiB : Z := 2 ^ 20.
Definition GiB : Z := 2 ^ 30.

(** The buffer pool table; a byte count has no fraction. *)
Definition buffer_pool_size (M : Z) : Z :=
  if M <? GiB then 128 * MiB
  else if M <=? 4 * GiB then M / 2
  else 3 * M / 4.

(** The log file table. *)
Definition log_file_size (M : Z) : Z :=
  if M <? GiB then 48 * MiB
  else if M <=? 4 * GiB then 128 * MiB
  else if M <=? 8 * GiB then 512 * MiB
  else if M <=? 16 * GiB then 1 * GiB
  else 2 * GiB.

(** [<workloadName>-<ordinalIndex>.<networkEndpointName>.<scope>]. *)
Definition member_hostname (workload : string) (index : Z) (endpoint scope : string) : string :=
  workload +:+ "-" +:+ strconv.FormatInt index +:+ "." +:+ endpoint +:+ "." +:+ scope.

(** An instance with a known lag of at most five seconds. *)
Definition qualifies (r : Instance) : bool :=
  Valid (SecondsBehindMaster r) && (Int64 (SecondsBehindMaster r) <=? 5).

(** The host name of the last qualifying instance of a response. *)
Definition last_qualifying (replicas : list Instance) : option string :=
  last (map (fun r => Hostname (Key r)) (filter (fun r => qualifies r = true) replicas)).

End spec.

(** ** Concrete inputs *)
Module examples.
Import resource orc events effects.

Definition opts (uri : string) : options.Options :=
  {| options.MysqlImage := "percona";
     options.MysqlImageTag := "5.7";
     options.HelperImage := "helper";
     options.MetricsExporterImage := "exporter";
     options.ImagePullPolicy := "Always";
     options.OrchestratorUri := uri |}.

(** A cluster [db] in namespace [prod]. *)
Definition db (ready : Z) (limits requests : gmap string Quantity)
    (conf : gmap string string) : v1alpha1.MysqlCluster :=
  {| v1alpha1.Name := "db";
     v1alpha1.Namespace := "prod";
     v1alpha1.Spec :=
       {| v1alpha1.SecretName := "db-secret";
          v1alpha1.MysqlVersion := "";
          v1alpha1.MysqlConf := conf;
          v1alpha1.PodSpec_ :=
            {| v1alpha1.ImagePullPolicy := "";
               v1alpha1.Resources := {| Limits := limits; Requests := requests |};
               v1alpha1.Affinity_ := {| v1alpha1.PodAntiAffinity_ := None |} |};
          v1alpha1.VolumeSpec_ :=
            {| v1alpha1.AccessModes := [];
               v1alpha1.VolumeResources := {| Limits := ∅; Requests := ∅ |} |} |};
     v1alpha1.Status := {| v1alpha1.ReadyNodes := ready |} |}.

(** A memory request of [M] bytes and nothing else. *)
Definition memory (M : Z) : gmap string Quantity := {[ ResourceMemory := of_units M ]}.

Definition replica (host : string) (lag : Z) : Instance :=
  {| Key := {| Hostname := host |};
     SecondsBehindMaster := {| Int64 := lag; Valid := true |} |}.

(** An environment without state: every sync function reports [state],
    except the one named [failing], which fails; [Discover] fails for the
    host [down]; the orchestrator answers with [master] and [replicas]. *)
Definition env (state : string) (failing : option (SyncFnName * string))
    (down : string) (master : Instance + string)
    (replicas : list Instance + string) : Env unit :=
  {| env_syncFn := fun fn w =>
       match failing with
       | Some (fn', e) =>
           if decide (fn = fn') then (("faild", Some e), w) else ((state, None), w)
       | None => ((state, None), w)
       end;
     env_Discover := fun uri host port w =>
       if String.eqb host down then (Some "connection refused", w) else (None, w);
     env_Master := fun uri cluster w => (master, w);
     env_ClusterOSCReplicas := fun uri cluster w => (replicas, w) |}.

End examples.

(** * Properties *)

Lemma len_is_0_true (s : string) : len_is_0 s = true <-> s = "".
Proof. destruct s; cbn; split; congruence. Qed.

Lemma len_is_0_false (s : string) : len_is_0 s = false <-> s <> "".
Proof. destruct s; cbn; split; congruence. Qed.

(** ** Binary64 arithmetic on integers below [2 ^ 53]

    Conversions and products are exact as long as the mantissa has room;
    the lemmas follow the rounding function of [SpecFloat] step by step. *)
Module float64_facts.
Import float64.

Lemma pow2_xO (k : positive) : 2 ^ Zpos k~0 = 2 ^ Zpos k * 2 ^ Zpos k.
Proof. rewrite <- Z.pow_add_r by lia. f_equal. lia. Qed.

Lemma pow2_xI (k : positive) : 2 ^ Zpos k~1 = 2 * (2 ^ Zpos k * 2 ^ Zpos k).
Proof.
  rewrite <- pow2_xO. replace (Zpos k~1) with (Z.succ (Zpos k~0)) by lia.
  apply Z.pow_succ_r. lia.
Qed.

Lemma Zpos_mul_pow2 (n k : positive) : Zpos (n * 2 ^ k) = Zpos n * 2 ^ Zpos k.
Proof. now rewrite Pos2Z.inj_mul, Pos2Z.inj_pow. Qed.

(** Shifting out [k] zero bits loses nothing. *)
Lemma iter_shr_exact (k n : positive) :
  SpecFloat.iter_pos shr_1 k (exact_shr (Zpos n * 2 ^ Zpos k)) = exact_shr (Zpos n).
Proof.
  revert n. induction k as [k IH | k IH |]; intros n; cbn [SpecFloat.iter_pos].
  - replace (Zpos n * 2 ^ Zpos k~1) with (Zpos ((n * 2 ^ k * 2 ^ k)~0)).
    + change (shr_1 (exact_shr (Zpos (n * 2 ^ k * 2 ^ k)~0)))
        with (exact_shr (Zpos (n * 2 ^ k * 2 ^ k))).
      rewrite Zpos_mul_pow2, IH, Zpos_mul_pow2. apply IH.
    + rewrite Pos2Z.inj_xO, !Zpos_mul_pow2, pow2_xI. ring.
  - replace (Zpos n * 2 ^ Zpos k~0) with (Zpos (n * 2 ^ k) * 2 ^ Zpos k).
    + rewrite IH, Zpos_mul_pow2. apply IH.
    + rewrite Zpos_mul_pow2, pow2_xO. ring.
  - replace (Zpos n * 2 ^ 1) with (Zpos n~0) by (rewrite Z.pow_1_r; lia).
    reflexivity.
Qed.

Lemma shr_exact (n : positive) (e k : Z) :
  0 <= k -> shr (exact_shr (Zpos n * 2 ^ k)) e k = (exact_shr (Zpos n), e + k).
Proof.
  intros Hk. destruct k as [| k | k]; [| | lia]; unfold shr.
  - now rewrite Z.pow_0_r, Z.mul_1_r, Z.add_0_r.
  - now rewrite iter_shr_exact.
Qed.

Lemma Zdigits2_log2 (z : Z) : 0 < z -> Zdigits2 z = Z.log2 z + 1.
Proof.
  destruct z as [| p | p]; try lia. intros _. simpl.
  induction p; simpl; try lia.
  - destruct p; simpl in *; lia.
  - destruct p; simpl in *; lia.
Qed.

Lemma Zdigits2_mul_pow2 (z k : Z) :
  0 < z -> 0 <= k -> Zdigits2 (z * 2 ^ k) = Zdigits2 z + k.
Proof.
  intros Hz Hk.
  rewrite !Zdigits2_log2
    by (try apply Z.mul_pos_pos; try apply Z.pow_pos_nonneg; lia).
  rewrite Z.log2_mul_pow2 by lia. lia.
Qed.

Lemma Zdigits2_bounds (z : Z) : 0 < z -> 2 ^ (Zdigits2 z - 1) <= z < 2 ^ Zdigits2 z.
Proof.
  intros Hz. rewrite Zdigits2_log2 by lia.
  replace (Z.log2 z + 1 - 1) with (Z.log2 z) by lia.
  replace (Z.log2 z + 1) with (Z.succ (Z.log2 z)) by lia.
  apply Z.log2_spec. lia.
Qed.

Lemma Zdigits2_le_53 (z : Z) : 0 < z < 2 ^ 53 -> 0 < Zdigits2 z <= 53.
Proof.
  intros Hz. split.
  - rewrite Zdigits2_log2 by lia. pose proof (Z.log2_nonneg z). lia.
  - destruct (Z.le_gt_cases (Zdigits2 z) 53) as [|Hgt]; [assumption|].
    pose proof (Zdigits2_bounds z ltac:(lia)) as [Hlo _].
    assert (2 ^ 53 <= 2 ^ (Zdigits2 z - 1)) by (apply Z.pow_le_mono_r; lia). lia.
Qed.

Lemma Zdigits2_mono (a b : Z) : 0 < a <= b -> Zdigits2 a <= Zdigits2 b.
Proof.
  intros H. rewrite !Zdigits2_log2 by lia.
  pose proof (Z.log2_le_mono a b). lia.
Qed.

Lemma shr_fexp_exact (n : positive) (e k : Z) :
  0 <= k -> Zdigits2 (Zpos n) = 53 -> -1074 <= e + k ->
  shr_fexp prec emax (Zpos n * 2 ^ k) e loc_Exact = (exact_shr (Zpos n), e + k).
Proof.
  intros Hk Hn He. unfold shr_fexp, fexp, emin, prec, emax.
  rewrite Zdigits2_mul_pow2, Hn by lia.
  replace (Z.max (53 + k + e - 53) (3 - 1024 - 53) - e) with k by lia.
  now apply shr_exact.
Qed.

(** Rounding a 53 digit mantissa followed by [k] zero bits is exact. *)
Lemma binary_round_aux_exact (n : positive) (e k : Z) :
  0 <= k -> Zdigits2 (Zpos n) = 53 -> -1074 <= e + k <= 971 ->
  binary_round_aux prec emax false (Zpos n * 2 ^ k) e loc_Exact
  = S754_finite false n (e + k).
Proof.
  intros Hk Hn He. unfold binary_round_aux.
  rewrite shr_fexp_exact by lia.
  cbn [exact_shr shr_m loc_of_shr_record round_nearest_even].
  pose proof (shr_fexp_exact n (e + k) 0) as H0.
  rewrite Z.pow_0_r, Z.mul_1_r, Z.add_0_r in H0. rewrite H0 by lia.
  cbn [exact_shr shr_m]. unfold prec, emax.
  destruct (Z.leb_spec (e + k) (1024 - 53)); [reflexivity | lia].
Qed.

Lemma iter_xO_pow2 (m q : positive) : Zpos (Pos.iter xO m q) = Zpos m * 2 ^ Zpos q.
Proof.
  induction q using Pos.peano_ind.
  - simpl. lia.
  - rewrite Pos.iter_succ, Pos2Z.inj_xO, IHq, Pos2Z.inj_succ, Z.pow_succ_r by lia.
    ring.
Qed.

Lemma norm53_spec (z : Z) :
  0 < z < 2 ^ 53 ->
  Zpos (norm53 z) = z * 2 ^ (53 - Zdigits2 z) /\ Zdigits2 (Zpos (norm53 z)) = 53.
Proof.
  intros Hz. pose proof (Zdigits2_le_53 z Hz) as Hd.
  assert (Hp : Zpos (norm53 z) = z * 2 ^ (53 - Zdigits2 z)).
  { unfold norm53. apply Z2Pos.id.
    apply Z.mul_pos_pos; [lia | apply Z.pow_pos_nonneg; lia]. }
  split; [assumption |].
  rewrite Hp, Zdigits2_mul_pow2 by lia. lia.
Qed.

(** [float64(z)] is [z] itself for [0 < z < 2 ^ 53]. *)
Lemma of_int64_exact (z : Z) :
  0 < z < 2 ^ 53 ->
  of_int64 z = S754_finite false (norm53 z) (Zdigits2 z - 53).
Proof.
  intros Hz. destruct (norm53_spec z Hz) as (Hp & H53).
  pose proof (Zdigits2_le_53 z Hz) as Hd.
  destruct z as [| m | m]; try lia.
  unfold of_int64, binary_normalize, binary_round, shl_align, fexp, emin, prec, emax.
  change (Zpos (digits2_pos m)) with (Zdigits2 (Zpos m)).
  replace (Z.max (Zdigits2 (Zpos m) + 0 - 53) (3 - 1024 - 53) - 0)
    with (Zdigits2 (Zpos m) - 53) by lia.
  destruct (Zdigits2 (Zpos m) - 53) as [| q | q] eqn:Hq; [| exfalso; lia |].
  - pose proof (binary_round_aux_exact (norm53 (Zpos m)) 0 0
                  ltac:(lia) H53 ltac:(lia)) as R.
    rewrite Hp, Z.pow_0_r, !Z.mul_1_r in R.
    replace (53 - Zdigits2 (Zpos m)) with 0 in R by lia.
    rewrite Z.pow_0_r, Z.mul_1_r in R. exact R.
  - pose proof (binary_round_aux_exact (norm53 (Zpos m)) (Zneg q) 0
                  ltac:(lia) H53 ltac:(lia)) as R.
    rewrite Z.pow_0_r, !Z.mul_1_r, Z.add_0_r in R.
    rewrite Hp in R. replace (53 - Zdigits2 (Zpos m)) with (Zpos q) in R by lia.
    rewrite iter_xO_pow2.
    replace (Z.max (Zdigits2 (Zpos m) + 0 - 53) (3 - 1024 - 53)) with (Zneg q) by lia.
    exact R.
Qed.

(** The product with [0.5] keeps the mantissa. *)
Lemma mul_half_exact (z : Z) :
  0 < z < 2 ^ 53 ->
  mul (of_int64 z) half = S754_finite false (norm53 z) (Zdigits2 z - 53 - 1).
Proof.
  intros Hz. rewrite of_int64_exact by assumption.
  destruct (norm53_spec z Hz) as (Hp & H53).
  pose proof (Zdigits2_le_53 z Hz) as Hd.
  unfold mul, half, SFmul. cbn [xorb].
  rewrite Pos2Z.inj_mul.
  change (Zpos (2 ^ 52)) with (2 ^ 52).
  rewrite binary_round_aux_exact by lia.
  f_equal. lia.
Qed.

(** The product with [0.75] is exact while [3 * z] fits the mantissa. *)
Lemma mul_three_quarters_exact (z : Z) :
  0 < z -> 3 * z < 2 ^ 53 ->
  mul (of_int64 z) three_quarters
  = S754_finite false (norm53 (3 * z)) (Zdigits2 (3 * z) - 53 - 2).
Proof.
  intros Hz H3. rewrite of_int64_exact by lia.
  destruct (norm53_spec z ltac:(lia)) as (Hp & H53).
  destruct (norm53_spec (3 * z) ltac:(lia)) as (Hp3 & H533).
  pose proof (Zdigits2_le_53 z ltac:(lia)) as Hd.
  pose proof (Zdigits2_le_53 (3 * z) ltac:(lia)) as Hd3.
  pose proof (Zdigits2_mono z (3 * z) ltac:(lia)) as Hmono.
  unfold mul, three_quarters, SFmul. cbn [xorb].
  rewrite Pos2Z.inj_mul.
  replace (Zpos (norm53 z) * Zpos (3 * 2 ^ 51))
    with (Zpos (norm53 (3 * z)) * 2 ^ (Zdigits2 (3 * z) - Zdigits2 z + 51)).
  - rewrite binary_round_aux_exact by lia. f_equal. lia.
  - rewrite Hp, Hp3. change (Zpos (3 * 2 ^ 51)) with (3 * 2 ^ 51).
    transitivity (3 * z * 2 ^ (104 - Zdigits2 z)).
    + rewrite <- Z.mul_assoc, <- Z.pow_add_r by lia. do 2 f_equal. lia.
    + replace (104 - Zdigits2 z) with ((53 - Zdigits2 z) + 51) by lia.
      rewrite Z.pow_add_r by lia. ring.
Qed.

(** [int64] of a normalised positive float: the integer part. *)
Lemma to_int64_norm53 (z j : Z) :
  0 < z < 2 ^ 53 -> 0 <= j ->
  to_int64 (S754_finite false (norm53 z) (Zdigits2 z - 53 - j)) = z / 2 ^ j.
Proof.
  intros Hz Hj. destruct (norm53_spec z Hz) as (Hp & _).
  pose proof (Zdigits2_le_53 z Hz) as Hd.
  assert (Hv : Z.shiftl (Zpos (norm53 z)) (Zdigits2 z - 53 - j) = z / 2 ^ j).
  { rewrite Z.shiftl_div_pow2 by lia. rewrite Hp.
    replace (- (Zdigits2 z - 53 - j)) with (j + (53 - Zdigits2 z)) by lia.
    rewrite Z.pow_add_r by lia.
    apply Z.div_mul_cancel_r.
    - pose proof (Z.pow_pos_nonneg 2 j); lia.
    - pose proof (Z.pow_pos_nonneg 2 (53 - Zdigits2 z)); lia. }
  unfold to_int64. rewrite Hv.
  assert (0 <= z / 2 ^ j <= z).
  { pose proof (Z.pow_pos_nonneg 2 j ltac:(lia) Hj). split.
    - apply Z.div_pos; lia.
    - apply Z.div_le_upper_bound; nia. }
  assert (2 ^ 53 < 2 ^ 63) by (apply Z.pow_lt_mono_r; lia).
  unfold min_int64, max_int64.
  pose proof (Z.pow_pos_nonneg 2 63).
  destruct (Z.leb_spec (- 2 ^ 63) (z / 2 ^ j)); [| lia].
  destruct (Z.leb_spec (z / 2 ^ j) (2 ^ 63 - 1)); [reflexivity | lia].
Qed.

(** [int64(float64(z) * 0.5)] drops the half byte. *)
Lemma half_of_int64 (z : Z) :
  0 < z < 2 ^ 53 -> to_int64 (mul (of_int64 z) half) = z / 2.
Proof.
  intros Hz. rewrite mul_half_exact by assumption.
  rewrite to_int64_norm53 by lia. reflexivity.
Qed.

(** [int64(float64(z) * 0.75)] drops the fraction while [3 * z < 2 ^ 53]. *)
Lemma three_quarters_of_int64 (z : Z) :
  0 < z -> 3 * z < 2 ^ 53 ->
  to_int64 (mul (of_int64 z) three_quarters) = 3 * z / 4.
Proof.
  intros Hz H3. rewrite mul_three_quarters_exact by assumption.
  rewrite to_int64_norm53 by lia. reflexivity.
Qed.

End float64_facts.

(** ** Defaulting *)
Module defaults_facts.
Import resource options v1alpha1.

Lemma PodSpec_UpdateDefaults_err (ps : PodSpec) (opt : Options) (cluster : MysqlCluster) :
  (PodSpec_UpdateDefaults ps opt cluster).2 = None.
Proof. reflexivity. Qed.

Lemma VolumeSpec_UpdateDefaults_err (vs : VolumeSpec) :
  (VolumeSpec_UpdateDefaults vs).2 = None.
Proof. reflexivity. Qed.

(** [make] on an empty configuration changes nothing. *)
Lemma make_empty_conf (c : ClusterSpec) :
  (if decide (size (MysqlConf c) = 0%nat) then with_MysqlConf c ∅ else c) = c.
Proof.
  destruct c as [sn ver conf ps vs]; unfold with_MysqlConf; cbn.
  case_decide as Hsize; [| reflexivity].
  apply map_size_empty_inv in Hsize. now subst conf.
Qed.

Lemma Memory_eq (rl : gmap string Quantity) :
  Memory rl = Some (default zero (rl !! ResourceMemory)).
Proof. unfold Memory. now destruct (rl !! ResourceMemory). Qed.

Ltac volume_defaults vs :=
  let H := fresh in
  pose proof (VolumeSpec_UpdateDefaults_err vs) as H;
  destruct (VolumeSpec_UpdateDefaults vs);
  cbn [fst snd] in *; subst; reflexivity.

(** The shape of the defaulted spec. *)
Lemma ClusterSpec_UpdateDefaults_eq (c : ClusterSpec) (opt : Options) (cluster : MysqlCluster) :
  ClusterSpec_UpdateDefaults c opt cluster
  = ({| SecretName := SecretName c;
        MysqlVersion := if len_is_0 (MysqlVersion c) then MysqlImageTag opt
                        else MysqlVersion c;
        MysqlConf := defaultedConf (MysqlConf c)
                       (memoryValue (PodSpec_UpdateDefaults (PodSpec_ c) opt cluster).1);
        PodSpec_ := (PodSpec_UpdateDefaults (PodSpec_ c) opt cluster).1;
        VolumeSpec_ := (VolumeSpec_UpdateDefaults (VolumeSpec_ c)).1 |}, None).
Proof.
  unfold ClusterSpec_UpdateDefaults. cbv zeta.
  assert (Hps : PodSpec_ (if len_is_0 (MysqlVersion c)
                          then {| SecretName := SecretName c; MysqlVersion := MysqlImageTag opt;
                                  MysqlConf := MysqlConf c; PodSpec_ := PodSpec_ c;
                                  VolumeSpec_ := VolumeSpec_ c |}
                          else c) = PodSpec_ c)
    by now destruct (len_is_0 (MysqlVersion c)).
  rewrite Hps. clear Hps.
  pose proof (PodSpec_UpdateDefaults_err (PodSpec_ c) opt cluster) as Herr.
  destruct (PodSpec_UpdateDefaults (PodSpec_ c) opt cluster) as [ps err].
  cbn [fst snd] in *. subst err.
  rewrite make_empty_conf. unfold defaultedConf, memoryValue.
  rewrite !Memory_eq.
  destruct c as [sn ver conf ps0 vs]; cbn [SecretName MysqlVersion MysqlConf PodSpec_ VolumeSpec_].
  assert (Hver : (if len_is_0 ver
                  then {| SecretName := sn; MysqlVersion := MysqlImageTag opt;
                          MysqlConf := conf; PodSpec_ := ps0; VolumeSpec_ := vs |}
                  else {| SecretName := sn; MysqlVersion := ver;
                          MysqlConf := conf; PodSpec_ := ps0; VolumeSpec_ := vs |})
                 = {| SecretName := sn;
                      MysqlVersion := if len_is_0 ver then MysqlImageTag opt else ver;
                      MysqlConf := conf; PodSpec_ := ps0; VolumeSpec_ := vs |})
    by now destruct (len_is_0 ver).
  rewrite Hver. clear Hver. cbn [SecretName MysqlVersion MysqlConf PodSpec_ VolumeSpec_].
  destruct (conf !! "innodb-buffer-pool-size") eqn:Hbp;
    unfold with_MysqlConf; cbn [SecretName MysqlVersion MysqlConf PodSpec_ VolumeSpec_].
  - destruct (conf !! "innodb-log-file-size") eqn:Hlog;
      cbn [SecretName MysqlVersion MysqlConf PodSpec_ VolumeSpec_];
      volume_defaults vs.
  - destruct (<["innodb-buffer-pool-size" := _]> conf !! "innodb-log-file-size") eqn:Hlog;
      cbn [SecretName MysqlVersion MysqlConf PodSpec_ VolumeSpec_];
      volume_defaults vs.
Qed.

Lemma UpdateDefaults_eq (c : MysqlCluster) (opt : Options) :
  UpdateDefaults c opt
  = ({| Name := Name c; Namespace := Namespace c;
        Spec := (ClusterSpec_UpdateDefaults (Spec c) opt c).1;
        Status := Status c |}, None).
Proof. unfold UpdateDefaults. now rewrite ClusterSpec_UpdateDefaults_eq. Qed.

(** The error of [UpdateDefaults] is always [nil]. *)
Lemma UpdateDefaults_err (c : MysqlCluster) (opt : Options) : (UpdateDefaults c opt).2 = None.
Proof. now rewrite UpdateDefaults_eq. Qed.

Lemma UpdateDefaults_conf (c : MysqlCluster) (opt : Options) :
  MysqlConf (Spec (UpdateDefaults c opt).1)
  = defaultedConf (MysqlConf (Spec c))
      (memoryValue (PodSpec_UpdateDefaults (PodSpec_ (Spec c)) opt c).1).
Proof. now rewrite UpdateDefaults_eq, ClusterSpec_UpdateDefaults_eq. Qed.

(** *** The two sizing keys *)

Lemma sizing_keys_differ : "innodb-buffer-pool-size" ≠ "innodb-log-file-size".
Proof. discriminate. Qed.

Lemma defaultedConf_buffer (conf : gmap string string) (mem : Z) :
  defaultedConf conf mem !! "innodb-buffer-pool-size"
  = Some (default (strconv.FormatInt (bufferSize mem)) (conf !! "innodb-buffer-pool-size")).
Proof.
  unfold defaultedConf.
  destruct (conf !! "innodb-buffer-pool-size") as [v |] eqn:Hbp; cbn [default].
  - destruct (conf !! "innodb-log-file-size");
      [assumption | now rewrite lookup_insert_ne by discriminate].
  - destruct (<["innodb-buffer-pool-size" := _]> conf !! "innodb-log-file-size");
      [| rewrite lookup_insert_ne by discriminate]; now rewrite lookup_insert_eq.
Qed.

Lemma defaultedConf_log (conf : gmap string string) (mem : Z) :
  defaultedConf conf mem !! "innodb-log-file-size"
  = Some (default (strconv.FormatInt (logFileSize mem)) (conf !! "innodb-log-file-size")).
Proof.
  unfold defaultedConf.
  destruct (conf !! "innodb-buffer-pool-size") as [v |] eqn:Hbp.
  - destruct (conf !! "innodb-log-file-size") as [l |] eqn:Hlog; cbn [default];
      [assumption | now rewrite lookup_insert_eq].
  - rewrite lookup_insert_ne by discriminate.
    destruct (conf !! "innodb-log-file-size") as [l |] eqn:Hlog; cbn [default].
    + now rewrite lookup_insert_ne by discriminate.
    + now rewrite lookup_insert_eq.
Qed.

(** A key that is set keeps its value. *)
Lemma defaultedConf_keeps (conf : gmap string string) (mem : Z) (k v : string) :
  conf !! k = Some v -> defaultedConf conf mem !! k = Some v.
Proof.
  intros Hk.
  destruct (decide (k = "innodb-buffer-pool-size")) as [-> | Hbp];
    [now rewrite defaultedConf_buffer, Hk |].
  destruct (decide (k = "innodb-log-file-size")) as [-> | Hlog];
    [now rewrite defaultedConf_log, Hk |].
  unfold defaultedConf.
  destruct (conf !! "innodb-buffer-pool-size");
    repeat match goal with
           | |- context [match ?m !! "innodb-log-file-size" with _ => _ end] =>
               destruct (m !! "innodb-log-file-size")
           end;
    now rewrite ?lookup_insert_ne by congruence.
Qed.

(** Once both keys are there the configuration is stable. *)
Lemma defaultedConf_idempotent (conf : gmap string string) (mem mem' : Z) :
  defaultedConf (defaultedConf conf mem) mem' = defaultedConf conf mem.
Proof.
  pose proof (defaultedConf_buffer conf mem) as Hb.
  pose proof (defaultedConf_log conf mem) as Hl.
  set (conf' := defaultedConf conf mem) in *.
  unfold defaultedConf at 1. now rewrite Hb, Hl.
Qed.

(** *** The memory request after the pod defaults *)

Lemma size_memory_request (rl : gmap string Quantity) (q : Quantity) :
  rl !! ResourceMemory = Some q -> size rl ≠ 0%nat.
Proof. intros Hq Hsize. apply map_size_empty_inv in Hsize. now subst rl. Qed.

(** The shape of the defaulted pod spec. *)
Lemma PodSpec_UpdateDefaults_eq (ps : PodSpec) (opt : Options) (cluster : MysqlCluster) :
  PodSpec_UpdateDefaults ps opt cluster
  = ({| ImagePullPolicy := if len_is_0 (ImagePullPolicy ps)
                           then options.ImagePullPolicy opt else ImagePullPolicy ps;
        Resources := if decide (size (Requests (Resources ps)) = 0%nat)
                     then defaultPodResources else Resources ps;
        Affinity_ := match PodAntiAffinity_ (Affinity_ ps) with
                     | None => defaultAffinity cluster
                     | Some _ => Affinity_ ps
                     end |}, None).
Proof.
  destruct ps as [ipp res [paa]]. unfold PodSpec_UpdateDefaults.
  cbv zeta. cbn [ImagePullPolicy Resources Affinity_ PodAntiAffinity_].
  destruct (len_is_0 ipp); cbn [ImagePullPolicy Resources Affinity_ PodAntiAffinity_];
    destruct (decide (size (Requests res) = 0%nat));
    cbn [ImagePullPolicy Resources Affinity_ PodAntiAffinity_];
    destruct paa; reflexivity.
Qed.

(** The shape of the defaulted volume spec. *)
Lemma VolumeSpec_UpdateDefaults_eq (vs : VolumeSpec) :
  VolumeSpec_UpdateDefaults vs
  = ({| AccessModes := match AccessModes vs with
                       | [] => [ReadWriteOnce]
                       | _ :: _ => AccessModes vs
                       end;
        VolumeResources := if decide (size (Requests (VolumeResources vs)) = 0%nat)
                           then defaultVolumeResources else VolumeResources vs |}, None).
Proof.
  destruct vs as [modes res]. unfold VolumeSpec_UpdateDefaults.
  cbv zeta. cbn [AccessModes VolumeResources].
  destruct modes; cbn [AccessModes VolumeResources];
    destruct (decide (size (Requests res) = 0%nat)); reflexivity.
Qed.

Lemma PodSpec_UpdateDefaults_requests_set (ps : PodSpec) (opt : Options)
    (cluster : MysqlCluster) :
  size (Requests (Resources ps)) ≠ 0%nat ->
  Resources (PodSpec_UpdateDefaults ps opt cluster).1 = Resources ps.
Proof.
  intros Hsize. rewrite PodSpec_UpdateDefaults_eq. cbn [fst Resources].
  now case_decide.
Qed.

Lemma PodSpec_UpdateDefaults_requests_unset (ps : PodSpec) (opt : Options)
    (cluster : MysqlCluster) :
  size (Requests (Resources ps)) = 0%nat ->
  Resources (PodSpec_UpdateDefaults ps opt cluster).1 = defaultPodResources.
Proof.
  intros Hsize. rewrite PodSpec_UpdateDefaults_eq. cbn [fst Resources].
  now case_decide.
Qed.

(** With a memory request present the sizing code reads that request. *)
Lemma memoryValue_present (ps : PodSpec) (opt : Options) (cluster : MysqlCluster)
    (q : Quantity) :
  Requests (Resources ps) !! ResourceMemory = Some q ->
  memoryValue (PodSpec_UpdateDefaults ps opt cluster).1 = Value q.
Proof.
  intros Hq. unfold memoryValue.
  rewrite PodSpec_UpdateDefaults_requests_set by (eapply size_memory_request; eassumption).
  now rewrite Hq.
Qed.

(** With no request at all it reads the floor of one GiB. *)
Lemma memoryValue_floor (ps : PodSpec) (opt : Options) (cluster : MysqlCluster) :
  size (Requests (Resources ps)) = 0%nat ->
  memoryValue (PodSpec_UpdateDefaults ps opt cluster).1 = 2 ^ 30.
Proof.
  intros Hsize. unfold memoryValue.
  rewrite PodSpec_UpdateDefaults_requests_unset by assumption.
  vm_compute. reflexivity.
Qed.

(** *** Idempotence *)

Lemma len_is_0_default (x y : string) :
  (if len_is_0 (if len_is_0 x then y else x) then y else (if len_is_0 x then y else x))
  = (if len_is_0 x then y else x).
Proof.
  destruct (len_is_0 x) eqn:Hx; [| now rewrite Hx].
  now destruct (len_is_0 y).
Qed.

Lemma defaultPodResources_size : size (Requests defaultPodResources) ≠ 0%nat.
Proof. eapply size_memory_request. vm_compute. reflexivity. Qed.

Lemma defaultVolumeResources_size : size (Requests defaultVolumeResources) ≠ 0%nat.
Proof.
  intros Hsize. apply map_size_empty_inv in Hsize.
  assert (H : Requests defaultVolumeResources !! ResourceStorage = Some resourceStorage)
    by (vm_compute; reflexivity).
  now rewrite Hsize in H.
Qed.

Lemma PodSpec_UpdateDefaults_idempotent (ps : PodSpec) (opt : Options)
    (cluster cluster' : MysqlCluster) :
  PodSpec_UpdateDefaults (PodSpec_UpdateDefaults ps opt cluster).1 opt cluster'
  = PodSpec_UpdateDefaults ps opt cluster.
Proof.
  rewrite !PodSpec_UpdateDefaults_eq.
  cbn [fst ImagePullPolicy Resources Affinity_]. f_equal. f_equal.
  - apply len_is_0_default.
  - destruct (decide (size (Requests (Resources ps)) = 0%nat)) as [Hs | Hs].
    + case_decide as Hd; [now apply defaultPodResources_size in Hd | reflexivity].
    + now case_decide.
  - destruct (PodAntiAffinity_ (Affinity_ ps)) eqn:Hpaa; [now rewrite Hpaa | reflexivity].
Qed.

Lemma VolumeSpec_UpdateDefaults_idempotent (vs : VolumeSpec) :
  VolumeSpec_UpdateDefaults (VolumeSpec_UpdateDefaults vs).1 = VolumeSpec_UpdateDefaults vs.
Proof.
  rewrite !VolumeSpec_UpdateDefaults_eq.
  cbn [fst AccessModes VolumeResources]. f_equal. f_equal.
  - now destruct (AccessModes vs).
  - destruct (decide (size (Requests (VolumeResources vs)) = 0%nat)) as [Hs | Hs].
    + case_decide as Hd; [now apply defaultVolumeResources_size in Hd | reflexivity].
    + now case_decide.
Qed.

(** Defaulting a defaulted definition changes nothing. *)
Lemma UpdateDefaults_idempotent (c : MysqlCluster) (opt : Options) :
  UpdateDefaults (UpdateDefaults c opt).1 opt = UpdateDefaults c opt.
Proof.
  rewrite !UpdateDefaults_eq. cbn [fst Name Namespace Spec Status].
  f_equal. f_equal.
  rewrite !ClusterSpec_UpdateDefaults_eq.
  cbn [fst SecretName MysqlVersion MysqlConf PodSpec_ VolumeSpec_].
  f_equal.
  - apply len_is_0_default.
  - apply defaultedConf_idempotent.
  - now rewrite PodSpec_UpdateDefaults_idempotent.
  - now rewrite VolumeSpec_UpdateDefaults_idempotent.
Qed.

(** What [UpdateDefaults] leaves alone: a field that is set keeps its value;
    the resource blocks are kept when their requests are set. *)
Lemma UpdateDefaults_keeps (c : MysqlCluster) (opt : Options) :
  let c' := (UpdateDefaults c opt).1 in
  Name c' = Name c /\ Namespace c' = Namespace c /\ Status c' = Status c
  /\ SecretName (Spec c') = SecretName (Spec c)
  /\ (MysqlVersion (Spec c) <> "" -> MysqlVersion (Spec c') = MysqlVersion (Spec c))
  /\ (forall k v, MysqlConf (Spec c) !! k = Some v -> MysqlConf (Spec c') !! k = Some v)
  /\ (ImagePullPolicy (PodSpec_ (Spec c)) <> "" ->
      ImagePullPolicy (PodSpec_ (Spec c')) = ImagePullPolicy (PodSpec_ (Spec c)))
  /\ (Requests (Resources (PodSpec_ (Spec c))) <> ∅ ->
      Resources (PodSpec_ (Spec c')) = Resources (PodSpec_ (Spec c)))
  /\ (PodAntiAffinity_ (Affinity_ (PodSpec_ (Spec c))) <> None ->
      Affinity_ (PodSpec_ (Spec c')) = Affinity_ (PodSpec_ (Spec c)))
  /\ (AccessModes (VolumeSpec_ (Spec c)) <> [] ->
      AccessModes (VolumeSpec_ (Spec c')) = AccessModes (VolumeSpec_ (Spec c)))
  /\ (Requests (VolumeResources (VolumeSpec_ (Spec c))) <> ∅ ->
      VolumeResources (VolumeSpec_ (Spec c')) = VolumeResources (VolumeSpec_ (Spec c))).
Proof.
  cbv zeta. rewrite UpdateDefaults_eq, ClusterSpec_UpdateDefaults_eq,
    PodSpec_UpdateDefaults_eq, VolumeSpec_UpdateDefaults_eq.
  cbn [fst Name Namespace Status Spec SecretName MysqlVersion MysqlConf PodSpec_
         VolumeSpec_ ImagePullPolicy Resources Affinity_ AccessModes VolumeResources].
  repeat split.
  - intros Hset. apply len_is_0_false in Hset. now rewrite Hset.
  - intros k v. apply defaultedConf_keeps.
  - intros Hset. apply len_is_0_false in Hset. now rewrite Hset.
  - intros Hset. case_decide as Hsize; [| reflexivity].
    now apply map_size_empty_inv in Hsize.
  - intros Hset. now destruct (PodAntiAffinity_ (Affinity_ (PodSpec_ (Spec c)))).
  - intros Hset. now destruct (AccessModes (VolumeSpec_ (Spec c))).
  - intros Hset. case_decide as Hsize; [| reflexivity].
    now apply map_size_empty_inv in Hsize.
Qed.

(** *** The tiers *)

(** Below [2 ^ 53 / 3] bytes the buffer pool is the table's, the fraction
    of a byte dropped. *)
Lemma bufferSize_spec (M : Z) :
  3 * M < 2 ^ 53 -> bufferSize M = spec.buffer_pool_size M.
Proof.
  intros HM. unfold bufferSize, spec.buffer_pool_size, spec.GiB, spec.MiB.
  change GB with (2 ^ 30). change MB with (2 ^ 20).
  assert (0 < 2 ^ 30) by (apply Z.pow_pos_nonneg; lia).
  destruct (Z.ltb_spec M (2 ^ 30)); [reflexivity |].
  destruct (Z.leb_spec M (4 * 2 ^ 30)).
  - apply float64_facts.half_of_int64. lia.
  - apply float64_facts.three_quarters_of_int64; lia.
Qed.

(** The log file size is the table's in every tier but the third. *)
Lemma logFileSize_spec (M : Z) :
  M <= 4 * spec.GiB \/ 8 * spec.GiB < M -> logFileSize M = spec.log_file_size M.
Proof.
  unfold logFileSize, spec.log_file_size, spec.GiB, spec.MiB.
  change GB with (2 ^ 30). change MB with (2 ^ 20).
  intros HM.
  repeat match goal with
         | |- context [Z.ltb ?a ?b] => destruct (Z.ltb_spec a b)
         | |- context [Z.leb ?a ?b] => destruct (Z.leb_spec a b)
         end; try reflexivity; lia.
Qed.

(** In the third tier it is 512 GiB. *)
Lemma logFileSize_third_tier (M : Z) :
  4 * spec.GiB < M <= 8 * spec.GiB -> logFileSize M = 512 * 2 ^ 30.
Proof.
  unfold logFileSize, spec.GiB. change GB with (2 ^ 30).
  intros HM.
  repeat match goal with
         | |- context [Z.ltb ?a ?b] => destruct (Z.ltb_spec a b)
         | |- context [Z.leb ?a ?b] => destruct (Z.leb_spec a b)
         end; try reflexivity; lia.
Qed.

End defaults_facts.

(** ** The claims about defaulting *)
Module defaults_claims.
Import resource options v1alpha1 defaults_facts.

(** C1 (the code departs from the table).  For a definition without an
    [innodb-log-file-size] key whose memory request [M] is present with
    4 GiB < M <= 8 GiB, [UpdateDefaults] stores 512 GiB, 549755813888 bytes,
    where the table of the specification has 512 MiB, 536870912 bytes: the
    source multiplies 512 by [GB] in the tier between [128 * MB] and
    [1 * GB]. *)
Theorem C1_log_file_size_third_tier (c : MysqlCluster) (opt : Options) (q : Quantity) :
  MysqlConf (Spec c) !! "innodb-log-file-size" = None ->
  Requests (Resources (PodSpec_ (Spec c))) !! ResourceMemory = Some q ->
  4 * spec.GiB < Value q <= 8 * spec.GiB ->
  MysqlConf (Spec (UpdateDefaults c opt).1) !! "innodb-log-file-size"
  = Some "549755813888"
  /\ strconv.FormatInt (spec.log_file_size (Value q)) = "536870912".
Proof.
  intros Hkey Hq HM. split.
  - rewrite UpdateDefaults_conf, defaultedConf_log, Hkey. cbn [default].
    rewrite (memoryValue_present _ _ _ q Hq), logFileSize_third_tier by assumption.
    vm_compute. reflexivity.
  - unfold spec.log_file_size, spec.GiB in *.
    assert (0 < 2 ^ 30) by (apply Z.pow_pos_nonneg; lia).
    destruct (Z.ltb_spec (Value q) (2 ^ 30)); [lia |].
    destruct (Z.leb_spec (Value q) (4 * 2 ^ 30)); [lia |].
    destruct (Z.leb_spec (Value q) (8 * 2 ^ 30)); [| lia].
    vm_compute. reflexivity.
Qed.

(** The same at a memory request of 6 GiB. *)
Lemma C1_log_file_size_third_tier_witness :
  MysqlConf (Spec (UpdateDefaults (examples.db 3 ∅ (examples.memory (6 * 2 ^ 30)) ∅)
                     (examples.opts "")).1) !! "innodb-log-file-size"
  = Some "549755813888"
  /\ strconv.FormatInt (spec.log_file_size (Value (of_units (6 * 2 ^ 30)))) = "536870912".
Proof.
  apply (C1_log_file_size_third_tier
           (examples.db 3 ∅ (examples.memory (6 * 2 ^ 30)) ∅) (examples.opts "")
           (of_units (6 * 2 ^ 30))).
  - reflexivity.
  - vm_compute. reflexivity.
  - vm_compute. split; [reflexivity | discriminate].
Defined.

(** C7 (the code departs from the claim).  A field that is set is not
    always left alone: with limits set and no requests, [UpdateDefaults]
    replaces the whole resource block by the default requests, and the
    limits are gone. *)
Theorem C7_limits_cleared :
  let c := examples.db 3 (examples.memory (2 * 2 ^ 30)) ∅ ∅ in
  let c' := (UpdateDefaults c (examples.opts "")).1 in
  Limits (Resources (PodSpec_ (Spec c))) !! ResourceMemory = Some (of_units (2 * 2 ^ 30))
  /\ Limits (Resources (PodSpec_ (Spec c'))) !! ResourceMemory = None
  /\ UpdateDefaults c' (examples.opts "") = UpdateDefaults c (examples.opts "").
Proof.
  cbv zeta. split; [| split].
  - vm_compute. reflexivity.
  - rewrite UpdateDefaults_eq, ClusterSpec_UpdateDefaults_eq.
    cbn [fst Spec PodSpec_].
    rewrite PodSpec_UpdateDefaults_requests_unset by (vm_compute; reflexivity).
    reflexivity.
  - apply UpdateDefaults_idempotent.
Qed.

(** C8 (amended).  For a definition without an [innodb-buffer-pool-size]
    key whose memory request [M] is present, [UpdateDefaults] sets the key
    to the decimal string of 128 MiB when M < 1 GiB, of M * 0.5 when
    1 GiB <= M <= 4 GiB and of M * 0.75 when M > 4 GiB, the fraction of a
    byte dropped, as long as 3 * M < 2 ^ 53: up to there the binary64
    product is exact. *)
Theorem C8_buffer_pool_size (c : MysqlCluster) (opt : Options) (q : Quantity) :
  MysqlConf (Spec c) !! "innodb-buffer-pool-size" = None ->
  Requests (Resources (PodSpec_ (Spec c))) !! ResourceMemory = Some q ->
  3 * Value q < 2 ^ 53 ->
  MysqlConf (Spec (UpdateDefaults c opt).1) !! "innodb-buffer-pool-size"
  = Some (strconv.FormatInt (spec.buffer_pool_size (Value q))).
Proof.
  intros Hkey Hq HM.
  rewrite UpdateDefaults_conf, defaultedConf_buffer, Hkey. cbn [default].
  rewrite (memoryValue_present _ _ _ q Hq).
  now rewrite bufferSize_spec.
Qed.

(** At 32 GiB the buffer pool is 24 GiB. *)
Lemma C8_buffer_pool_size_witness :
  MysqlConf (Spec (UpdateDefaults (examples.db 3 ∅ (examples.memory (32 * 2 ^ 30)) ∅)
                     (examples.opts "")).1) !! "innodb-buffer-pool-size"
  = Some (strconv.FormatInt (spec.buffer_pool_size (Value (of_units (32 * 2 ^ 30))))).
Proof.
  apply (C8_buffer_pool_size
           (examples.db 3 ∅ (examples.memory (32 * 2 ^ 30)) ∅) (examples.opts "")
           (of_units (32 * 2 ^ 30))).
  - reflexivity.
  - vm_compute. reflexivity.
  - vm_compute. reflexivity.
Defined.

(** C8 as stated fails for a request of 2 ^ 62 + 400 bytes: [float64]
    has no such number, the conversion gives 2 ^ 62, and the key is set to
    3 * 2 ^ 60, which is 300 bytes short of M * 0.75. *)
Lemma C8_counterexample :
  let M := 2 ^ 62 + 400 in
  let c := examples.db 3 ∅ (examples.memory M) ∅ in
  MysqlConf (Spec c) !! "innodb-buffer-pool-size" = None
  /\ Requests (Resources (PodSpec_ (Spec c))) !! ResourceMemory = Some (of_units M)
  /\ Value (of_units M) = M
  /\ MysqlConf (Spec (UpdateDefaults c (examples.opts "")).1) !! "innodb-buffer-pool-size"
     = Some "3458764513820540928"
  /\ strconv.FormatInt (spec.buffer_pool_size M) = "3458764513820541228"
  /\ MysqlConf (Spec (UpdateDefaults c (examples.opts "")).1) !! "innodb-buffer-pool-size"
     <> Some (strconv.FormatInt (spec.buffer_pool_size M)).
Proof.
  cbv zeta. repeat split; try (vm_compute; reflexivity).
  vm_compute. discriminate.
Qed.

(** C10.  For a definition with empty resource requests and neither sizing
    key set, [UpdateDefaults] installs the floor request of 1 GiB of memory
    and sizes from it: the buffer pool is 536870912 and the log file is
    134217728. *)
Theorem C10_sizing_from_floor (c : MysqlCluster) (opt : Options) :
  Requests (Resources (PodSpec_ (Spec c))) = ∅ ->
  MysqlConf (Spec c) !! "innodb-buffer-pool-size" = None ->
  MysqlConf (Spec c) !! "innodb-log-file-size" = None ->
  let c' := (UpdateDefaults c opt).1 in
  (UpdateDefaults c opt).2 = None
  /\ Requests (Resources (PodSpec_ (Spec c'))) !! ResourceMemory = Some (of_units (2 ^ 30))
  /\ Value (of_units (2 ^ 30)) = 2 ^ 30
  /\ MysqlConf (Spec c') !! "innodb-buffer-pool-size" = Some "536870912"
  /\ MysqlConf (Spec c') !! "innodb-log-file-size" = Some "134217728".
Proof.
  intros Hreq Hbp Hlog. cbv zeta.
  assert (Hsize : size (Requests (Resources (PodSpec_ (Spec c)))) = 0%nat)
    by now rewrite Hreq.
  split; [apply UpdateDefaults_err |].
  split.
  { rewrite UpdateDefaults_eq, ClusterSpec_UpdateDefaults_eq. cbn [fst Spec PodSpec_].
    rewrite PodSpec_UpdateDefaults_requests_unset by assumption.
    vm_compute. reflexivity. }
  split; [vm_compute; reflexivity |].
  rewrite UpdateDefaults_conf, memoryValue_floor by assumption.
  rewrite defaultedConf_buffer, defaultedConf_log, Hbp, Hlog. cbn [default].
  split; vm_compute; reflexivity.
Qed.

Lemma C10_sizing_from_floor_witness :
  let c' := (UpdateDefaults (examples.db 0 ∅ ∅ ∅) (examples.opts "")).1 in
  (UpdateDefaults (examples.db 0 ∅ ∅ ∅) (examples.opts "")).2 = None
  /\ Requests (Resources (PodSpec_ (Spec c'))) !! ResourceMemory = Some (of_units (2 ^ 30))
  /\ Value (of_units (2 ^ 30)) = 2 ^ 30
  /\ MysqlConf (Spec c') !! "innodb-buffer-pool-size" = Some "536870912"
  /\ MysqlConf (Spec c') !! "innodb-log-file-size" = Some "134217728".
Proof.
  apply (C10_sizing_from_floor (examples.db 0 ∅ ∅ ∅) (examples.opts ""));
    reflexivity.
Defined.

End defaults_claims.

(** ** Runs *)
Module run_facts.
Import orc events effects.

Section Run.
Context {W A : Type} (E : Env W).

Lemma trace_Ret (a : A) (w : W) : trace E (Ret a) w = [].
Proof. reflexivity. Qed.

Lemma result_Ret (a : A) (w : W) : result E (Ret a) w = a.
Proof. reflexivity. Qed.

Lemma trace_CallSyncFn fn (k : string * option string -> prog A) (w : W) :
  trace E (CallSyncFn fn k) w
  = ASyncFn fn (env_syncFn E fn w).1 :: trace E (k (env_syncFn E fn w).1) (env_syncFn E fn w).2.
Proof.
  unfold trace. cbn [run]. destruct (env_syncFn E fn w) as [r w1]. cbn [fst snd].
  now destruct (run E (k r) w1) as [[a w2] t].
Qed.

Lemma result_CallSyncFn fn (k : string * option string -> prog A) (w : W) :
  result E (CallSyncFn fn k) w = result E (k (env_syncFn E fn w).1) (env_syncFn E fn w).2.
Proof.
  unfold result. cbn [run]. destruct (env_syncFn E fn w) as [r w1]. cbn [fst snd].
  now destruct (run E (k r) w1) as [[a w2] t].
Qed.

Lemma trace_RecEvent ty reason msg (k : prog A) (w : W) :
  trace E (RecEvent ty reason msg k) w = AEvent ty reason msg :: trace E k w.
Proof. unfold trace. cbn [run]. now destruct (run E k w) as [[a w2] t]. Qed.

Lemma result_RecEvent ty reason msg (k : prog A) (w : W) :
  result E (RecEvent ty reason msg k) w = result E k w.
Proof. unfold result. cbn [run]. now destruct (run E k w) as [[a w2] t]. Qed.

Lemma trace_Glog sev msg (k : prog A) (w : W) :
  trace E (Glog sev msg k) w = AGlog sev msg :: trace E k w.
Proof. unfold trace. cbn [run]. now destruct (run E k w) as [[a w2] t]. Qed.

Lemma result_Glog sev msg (k : prog A) (w : W) :
  result E (Glog sev msg k) w = result E k w.
Proof. unfold result. cbn [run]. now destruct (run E k w) as [[a w2] t]. Qed.

Lemma trace_OrcDiscover uri host port (k : option string -> prog A) (w : W) :
  trace E (OrcDiscover uri host port k) w
  = ADiscover uri host port (env_Discover E uri host port w).1
    :: trace E (k (env_Discover E uri host port w).1) (env_Discover E uri host port w).2.
Proof.
  unfold trace. cbn [run]. destruct (env_Discover E uri host port w) as [r w1]. cbn [fst snd].
  now destruct (run E (k r) w1) as [[a w2] t].
Qed.

Lemma result_OrcDiscover uri host port (k : option string -> prog A) (w : W) :
  result E (OrcDiscover uri host port k) w
  = result E (k (env_Discover E uri host port w).1) (env_Discover E uri host port w).2.
Proof.
  unfold result. cbn [run]. destruct (env_Discover E uri host port w) as [r w1]. cbn [fst snd].
  now destruct (run E (k r) w1) as [[a w2] t].
Qed.

Lemma trace_OrcMaster uri cluster (k : Instance + string -> prog A) (w : W) :
  trace E (OrcMaster uri cluster k) w
  = AMaster uri cluster (env_Master E uri cluster w).1
    :: trace E (k (env_Master E uri cluster w).1) (env_Master E uri cluster w).2.
Proof.
  unfold trace. cbn [run]. destruct (env_Master E uri cluster w) as [r w1]. cbn [fst snd].
  now destruct (run E (k r) w1) as [[a w2] t].
Qed.

Lemma result_OrcMaster uri cluster (k : Instance + string -> prog A) (w : W) :
  result E (OrcMaster uri cluster k) w
  = result E (k (env_Master E uri cluster w).1) (env_Master E uri cluster w).2.
Proof.
  unfold result. cbn [run]. destruct (env_Master E uri cluster w) as [r w1]. cbn [fst snd].
  now destruct (run E (k r) w1) as [[a w2] t].
Qed.

Lemma trace_OrcClusterOSCReplicas uri cluster (k : list Instance + string -> prog A) (w : W) :
  trace E (OrcClusterOSCReplicas uri cluster k) w
  = AReplicas uri cluster (env_ClusterOSCReplicas E uri cluster w).1
    :: trace E (k (env_ClusterOSCReplicas E uri cluster w).1)
         (env_ClusterOSCReplicas E uri cluster w).2.
Proof.
  unfold trace. cbn [run]. destruct (env_ClusterOSCReplicas E uri cluster w) as [r w1].
  cbn [fst snd]. now destruct (run E (k r) w1) as [[a w2] t].
Qed.

Lemma result_OrcClusterOSCReplicas uri cluster (k : list Instance + string -> prog A) (w : W) :
  result E (OrcClusterOSCReplicas uri cluster k) w
  = result E (k (env_ClusterOSCReplicas E uri cluster w).1)
      (env_ClusterOSCReplicas E uri cluster w).2.
Proof.
  unfold result. cbn [run]. destruct (env_ClusterOSCReplicas E uri cluster w) as [r w1].
  cbn [fst snd]. now destruct (run E (k r) w1) as [[a w2] t].
Qed.

End Run.

Create Rewrite HintDb run.

#[export] Hint Rewrite @trace_Ret @result_Ret @trace_CallSyncFn @result_CallSyncFn
  @trace_RecEvent @result_RecEvent @trace_Glog @result_Glog
  @trace_OrcDiscover @result_OrcDiscover @trace_OrcMaster @result_OrcMaster
  @trace_OrcClusterOSCReplicas @result_OrcClusterOSCReplicas : run.

End run_facts.

(** ** Topology resolution *)
Module topology_facts.
Import options orc events effects v1alpha1 run_facts.

Lemma last_qualifying_cons (r : Instance) (replicas : list Instance) :
  spec.last_qualifying (r :: replicas)
  = match spec.last_qualifying replicas with
    | Some h => Some h
    | None => if spec.qualifies r then Some (Hostname (Key r)) else None
    end.
Proof.
  unfold spec.last_qualifying. rewrite filter_cons.
  destruct (spec.qualifies r) eqn:Hq.
  - rewrite decide_True by reflexivity. cbn [map]. rewrite last_cons.
    reflexivity.
  - rewrite decide_False by discriminate.
    now destruct (last _).
Qed.

Section Resolve.
Context {W : Type} (E : Env W).

(** The loop keeps the last qualifying host, or the host it started with. *)
Lemma chooseReplica_result {A : Type} (replicas : list Instance) (host : string)
    (k : string -> prog A) (w : W) :
  result E (chooseReplica replicas host k) w
  = result E (k (default host (spec.last_qualifying replicas))) w.
Proof.
  revert host. induction replicas as [| r replicas IH]; intros host; [reflexivity |].
  cbn [chooseReplica]. rewrite last_qualifying_cons.
  change (Valid (SecondsBehindMaster r) && (Int64 (SecondsBehindMaster r) <=? 5))
    with (spec.qualifies r).
  destruct (spec.qualifies r).
  - rewrite result_Glog, IH. now destruct (spec.last_qualifying replicas).
  - rewrite IH. now destruct (spec.last_qualifying replicas).
Qed.

(** The static default of [GetHealtySlaveHost]. *)
Lemma GetHealtySlaveHost_unconfigured (opt : Options) (c : MysqlCluster) (w : W) :
  OrchestratorUri opt = "" ->
  result E (GetHealtySlaveHost opt c) w
  = (if ReadyNodes (Status c) <? 1 then GetPodHostName c 0
     else GetPodHostName c (ReadyNodes (Status c) - 1))
  /\ Forall (fun a => is_orc_call a = false) (trace E (GetHealtySlaveHost opt c) w).
Proof.
  intros Huri. unfold GetHealtySlaveHost, GetOrcUri. rewrite Huri. cbn [len_is_0 negb].
  destruct (ReadyNodes (Status c) <? 1); autorewrite with run;
    (split; [reflexivity | repeat constructor]).
Qed.

Lemma GetHealtySlaveHost_no_ready (opt : Options) (c : MysqlCluster) (w : W) :
  ReadyNodes (Status c) < 1 ->
  result E (GetHealtySlaveHost opt c) w = GetPodHostName c 0
  /\ Forall (fun a => is_orc_call a = false) (trace E (GetHealtySlaveHost opt c) w).
Proof.
  intros Hready. unfold GetHealtySlaveHost.
  destruct (Z.ltb_spec (ReadyNodes (Status c)) 1); [| lia].
  autorewrite with run. split; [reflexivity | repeat constructor].
Qed.

Lemma GetHealtySlaveHost_configured (opt : Options) (c : MysqlCluster) (w : W) :
  OrchestratorUri opt <> "" -> 1 <= ReadyNodes (Status c) ->
  let r := env_ClusterOSCReplicas E (OrchestratorUri opt) (Name c) w in
  result E (GetHealtySlaveHost opt c) w
  = match r.1 with
    | inl replicas =>
        default (GetPodHostName c (ReadyNodes (Status c) - 1)) (spec.last_qualifying replicas)
    | inr _ => GetPodHostName c (ReadyNodes (Status c) - 1)
    end
  /\ exists t,
       trace E (GetHealtySlaveHost opt c) w
       = AGlog InfoV2 "[GetHealtySlaveHost]: Use orchestrator to get slave host."
         :: AReplicas (OrchestratorUri opt) (Name c) r.1 :: t.
Proof.
  intros Huri Hready. cbv zeta. unfold GetHealtySlaveHost, GetOrcUri.
  apply len_is_0_false in Huri. rewrite Huri. cbn [negb].
  destruct (Z.ltb_spec (ReadyNodes (Status c)) 1); [lia |].
  rewrite result_Glog, result_OrcClusterOSCReplicas, trace_Glog, trace_OrcClusterOSCReplicas.
  split; [| eexists; reflexivity].
  destruct (env_ClusterOSCReplicas E (OrchestratorUri opt) (Name c) w).1 as [replicas | err].
  - rewrite chooseReplica_result. now autorewrite with run.
  - now autorewrite with run.
Qed.

Lemma GetMasterHost_unconfigured (opt : Options) (c : MysqlCluster) (w : W) :
  OrchestratorUri opt = "" ->
  result E (GetMasterHost opt c) w = GetPodHostName c 0
  /\ trace E (GetMasterHost opt c) w = [].
Proof.
  intros Huri. unfold GetMasterHost, GetOrcUri. rewrite Huri. now cbn.
Qed.

Lemma GetMasterHost_configured (opt : Options) (c : MysqlCluster) (w : W) :
  OrchestratorUri opt <> "" ->
  let r := env_Master E (OrchestratorUri opt) (Name c +:+ "." +:+ Namespace c) w in
  result E (GetMasterHost opt c) w
  = match r.1 with
    | inl inst => Hostname (Key inst)
    | inr _ => GetPodHostName c 0
    end
  /\ exists t,
       trace E (GetMasterHost opt c) w
       = AMaster (OrchestratorUri opt) (Name c +:+ "." +:+ Namespace c) r.1 :: t.
Proof.
  intros Huri. cbv zeta. unfold GetMasterHost, GetOrcUri.
  apply len_is_0_false in Huri. rewrite Huri. cbn [negb].
  rewrite result_OrcMaster, trace_OrcMaster.
  split; [| eexists; reflexivity].
  destruct (env_Master E (OrchestratorUri opt) (Name c +:+ "." +:+ Namespace c) w).1;
    now autorewrite with run.
Qed.

End Resolve.

End topology_facts.

(** ** The claims about topology resolution and host names *)
Module topology_claims.
Import options orc events effects v1alpha1 mysqlcluster run_facts topology_facts.

Lemma last_qualifying_None (replicas : list Instance) :
  spec.last_qualifying replicas = None
  <-> Forall (fun r => spec.qualifies r = false) replicas.
Proof.
  induction replicas as [| r replicas IH]; [split; [constructor | reflexivity] |].
  rewrite last_qualifying_cons, Forall_cons.
  destruct (spec.last_qualifying replicas) as [h |].
  - split; [discriminate | intros [_ H]; now apply IH in H].
  - destruct (spec.qualifies r); split; try discriminate; try tauto.
    intros [H _]. discriminate.
Qed.

(** [last_qualifying] is the host of the qualifying instance after which no
    instance of the response qualifies. *)
Lemma last_qualifying_Some (replicas : list Instance) (h : string) :
  spec.last_qualifying replicas = Some h
  <-> exists (before : list Instance) (r : Instance) (after : list Instance),
        replicas = (before ++ r :: after)%list
        /\ spec.qualifies r = true /\ Hostname (Key r) = h
        /\ Forall (fun r' => spec.qualifies r' = false) after.
Proof.
  induction replicas as [| r replicas IH].
  - split; [discriminate |]. intros (before & r & after & H & _). now destruct before.
  - rewrite last_qualifying_cons.
    destruct (spec.last_qualifying replicas) as [h' |] eqn:Hlast.
    + split.
      * intros [= ->]. destruct (proj1 IH eq_refl) as (before & r' & after & -> & Hq & Hh & Ha).
        exists (r :: before), r', after. auto.
      * intros (before & r' & after & Heq & Hq & Hh & Ha).
        destruct before as [| b before]; cbn in Heq; injection Heq as -> ->.
        -- apply last_qualifying_None in Ha. congruence.
        -- apply IH. exists before, r', after. auto.
    + pose proof (proj1 (last_qualifying_None replicas) Hlast) as Hnone.
      split.
      * destruct (spec.qualifies r) eqn:Hq; [| discriminate].
        intros [= <-]. exists [], r, replicas. auto.
      * intros (before & r' & after & Heq & Hq & Hh & Ha).
        destruct before as [| b before]; cbn in Heq; injection Heq as -> ->.
        -- now rewrite Hq, Hh.
        -- apply Forall_app in Hnone as [_ Hnone]. apply Forall_cons in Hnone as [Hr _].
           congruence.
Qed.

(** C3 (amended).  With an orchestrator configured and at least one ready
    node, when the replicas query succeeds [GetHealtySlaveHost] returns the
    host name of the last instance of the response whose lag is known and
    at most five seconds, and the static default, the host of the member
    with index [ReadyNodes - 1], when no instance qualifies.  (With no
    ready node the function returns before it reads the orchestrator
    address.) *)
Theorem C3_last_qualifying_replica {W : Type} (E : Env W) (w w' : W) (opt : Options)
    (c : MysqlCluster) (replicas : list Instance) :
  OrchestratorUri opt <> "" ->
  1 <= ReadyNodes (Status c) ->
  env_ClusterOSCReplicas E (OrchestratorUri opt) (Name c) w = (inl replicas, w') ->
  (forall h, spec.last_qualifying replicas = Some h ->
             result E (GetHealtySlaveHost opt c) w = h)
  /\ (spec.last_qualifying replicas = None ->
      result E (GetHealtySlaveHost opt c) w = GetPodHostName c (ReadyNodes (Status c) - 1)).
Proof.
  intros Huri Hready Hquery.
  destruct (GetHealtySlaveHost_configured E opt c w Huri Hready) as [Hres _].
  rewrite Hquery in Hres. cbn [fst] in Hres. rewrite Hres.
  split; [intros h Hlast | intros Hlast]; now rewrite Hlast.
Qed.

(** Lags of 3 s and 2 s, in this order: the second instance is chosen. *)
Lemma C3_last_qualifying_replica_witness :
  let E := examples.env "up-to-date" None "" (inr "no master")
             (inl [examples.replica "a" 3; examples.replica "b" 2]) in
  (forall h, spec.last_qualifying [examples.replica "a" 3; examples.replica "b" 2] = Some h ->
             result E (GetHealtySlaveHost (examples.opts "http://orc") (examples.db 3 ∅ ∅ ∅)) tt
             = h)
  /\ (spec.last_qualifying [examples.replica "a" 3; examples.replica "b" 2] = None ->
      result E (GetHealtySlaveHost (examples.opts "http://orc") (examples.db 3 ∅ ∅ ∅)) tt
      = GetPodHostName (examples.db 3 ∅ ∅ ∅) (3 - 1)).
Proof.
  apply (C3_last_qualifying_replica
           (examples.env "up-to-date" None "" (inr "no master")
              (inl [examples.replica "a" 3; examples.replica "b" 2]))
           tt tt (examples.opts "http://orc") (examples.db 3 ∅ ∅ ∅)
           [examples.replica "a" 3; examples.replica "b" 2]).
  - discriminate.
  - cbn. lia.
  - reflexivity.
Defined.

(** C3 as stated fails with no ready node: the orchestrator is configured
    and would answer with a qualifying instance, but the result is the host
    name of member 0. *)
Lemma C3_counterexample :
  let opt := examples.opts "http://orc" in
  let c := examples.db 0 ∅ ∅ ∅ in
  let replicas := [examples.replica "db-mysql-1.db-mysql.prod" 2] in
  let E := examples.env "up-to-date" None "" (inr "no master") (inl replicas) in
  OrchestratorUri opt <> ""
  /\ env_ClusterOSCReplicas E (OrchestratorUri opt) (Name c) tt = (inl replicas, tt)
  /\ spec.last_qualifying replicas = Some "db-mysql-1.db-mysql.prod"
  /\ result E (GetHealtySlaveHost opt c) tt = "db-mysql-0.db-mysql"
  /\ result E (GetHealtySlaveHost opt c) tt <> "db-mysql-1.db-mysql.prod".
Proof.
  cbv zeta. repeat split; try reflexivity; discriminate.
Qed.

(** C5.  Without an orchestrator [GetMasterHost] returns the host name of
    member 0 whatever the number of ready nodes is, and [GetHealtySlaveHost]
    returns the host name of member [ReadyNodes - 1] when there is a ready
    node and of member 0 when there is none.  Both always return a host
    name: when the orchestrator is configured and its query fails, the
    default is returned. *)
Theorem C5_static_defaults {W : Type} (E : Env W) (w : W) (opt : Options)
    (c : MysqlCluster) :
  (OrchestratorUri opt = "" ->
     result E (GetMasterHost opt c) w = GetPodHostName c 0
     /\ (1 <= ReadyNodes (Status c) ->
         result E (GetHealtySlaveHost opt c) w
         = GetPodHostName c (ReadyNodes (Status c) - 1))
     /\ (ReadyNodes (Status c) = 0 ->
         result E (GetHealtySlaveHost opt c) w = GetPodHostName c 0))
  /\ (forall err w',
        env_Master E (OrchestratorUri opt) (Name c +:+ "." +:+ Namespace c) w = (inr err, w') ->
        result E (GetMasterHost opt c) w = GetPodHostName c 0)
  /\ (forall err w',
        env_ClusterOSCReplicas E (OrchestratorUri opt) (Name c) w = (inr err, w') ->
        result E (GetHealtySlaveHost opt c) w
        = if ReadyNodes (Status c) <? 1 then GetPodHostName c 0
          else GetPodHostName c (ReadyNodes (Status c) - 1)).
Proof.
  split; [| split].
  - intros Huri.
    destruct (GetMasterHost_unconfigured E opt c w Huri) as [Hm _].
    destruct (GetHealtySlaveHost_unconfigured E opt c w Huri) as [Hs _].
    split; [assumption |]. rewrite Hs.
    split; intros Hready; destruct (Z.ltb_spec (ReadyNodes (Status c)) 1);
      try reflexivity; lia.
  - intros err w' Hquery.
    destruct (decide (OrchestratorUri opt = "")) as [Huri | Huri].
    + now apply GetMasterHost_unconfigured.
    + destruct (GetMasterHost_configured E opt c w Huri) as [Hres _].
      now rewrite Hquery in Hres.
  - intros err w' Hquery.
    destruct (decide (OrchestratorUri opt = "")) as [Huri | Huri].
    + now apply GetHealtySlaveHost_unconfigured.
    + destruct (Z.ltb_spec (ReadyNodes (Status c)) 1) as [Hready | Hready].
      * now apply GetHealtySlaveHost_no_ready.
      * destruct (GetHealtySlaveHost_configured E opt c w Huri Hready) as [Hres _].
        now rewrite Hquery in Hres.
Qed.

(** Three ready nodes and no orchestrator; then an orchestrator whose
    queries fail. *)
Lemma C5_static_defaults_witness :
  let down := examples.env "up-to-date" None "" (inr "timeout") (inr "timeout") in
  result down (GetMasterHost (examples.opts "") (examples.db 3 ∅ ∅ ∅)) tt
  = "db-mysql-0.db-mysql"
  /\ result down (GetHealtySlaveHost (examples.opts "") (examples.db 3 ∅ ∅ ∅)) tt
     = "db-mysql-2.db-mysql"
  /\ result down (GetMasterHost (examples.opts "http://orc") (examples.db 3 ∅ ∅ ∅)) tt
     = "db-mysql-0.db-mysql"
  /\ result down (GetHealtySlaveHost (examples.opts "http://orc") (examples.db 3 ∅ ∅ ∅)) tt
     = "db-mysql-2.db-mysql".
Proof.
  cbv zeta.
  destruct (C5_static_defaults
              (examples.env "up-to-date" None "" (inr "timeout") (inr "timeout"))
              tt (examples.opts "") (examples.db 3 ∅ ∅ ∅)) as (Hstatic & _ & _).
  destruct (Hstatic eq_refl) as (Hm & Hs & _).
  destruct (C5_static_defaults
              (examples.env "up-to-date" None "" (inr "timeout") (inr "timeout"))
              tt (examples.opts "http://orc") (examples.db 3 ∅ ∅ ∅)) as (_ & Hmfail & Hsfail).
  split; [exact Hm |].
  split; [apply Hs; cbn; lia |].
  split; [exact (Hmfail "timeout" tt eq_refl) |].
  exact (Hsfail "timeout" tt eq_refl).
Defined.

Lemma append_assoc (a b c : string) : (a +:+ b) +:+ c = a +:+ b +:+ c.
Proof.
  induction a as [| x a IH]; [reflexivity |].
  change (String x ((a +:+ b) +:+ c) = String x (a +:+ b +:+ c)). now f_equal.
Qed.

Lemma append_not_self (a b : string) : b <> "" -> a +:+ b <> a.
Proof.
  intros Hb. induction a as [| x a IH]; [exact Hb |].
  change (String x (a +:+ b) <> String x a). intros [= H]. now apply IH.
Qed.

(** C9 (the code departs from the claim).  The host names that [Sync]
    registers have the form [<workload>-<index>.<endpoint>.<namespace>], but
    the host names that the resolvers return as static defaults are
    [<workload>-<index>.<endpoint>]: [GetPodHostName] leaves the namespace
    out, so that no static default has the form of the claim. *)
Theorem C9_member_hostnames (f : cFactory) (c : MysqlCluster) (i : Z) :
  getHostForReplica f i
  = spec.member_hostname (GetNameForResource (cluster f) StatefulSet) i
      (GetNameForResource (cluster f) HeadlessSVC) (Namespace (cluster f))
  /\ GetPodHostName c i
     = GetNameForResource c StatefulSet +:+ "-" +:+ strconv.FormatInt i
       +:+ "." +:+ GetNameForResource c HeadlessSVC
  /\ spec.member_hostname (GetNameForResource c StatefulSet) i
       (GetNameForResource c HeadlessSVC) (Namespace c)
     = GetPodHostName c i +:+ "." +:+ Namespace c
  /\ GetPodHostName c i
     <> spec.member_hostname (GetNameForResource c StatefulSet) i
          (GetNameForResource c HeadlessSVC) (Namespace c).
Proof.
  split; [reflexivity |].
  assert (Hform : spec.member_hostname (GetNameForResource c StatefulSet) i
                    (GetNameForResource c HeadlessSVC) (Namespace c)
                  = GetPodHostName c i +:+ "." +:+ Namespace c).
  { unfold GetPodHostName, spec.member_hostname. cbv zeta. now rewrite !append_assoc. }
  split; [| split; [exact Hform |]].
  - unfold GetPodHostName. cbv zeta. now rewrite !append_assoc.
  - rewrite Hform. intros Heq. symmetry in Heq. revert Heq.
    apply append_not_self. discriminate.
Qed.

(** Member 0 of cluster [db] in namespace [prod]. *)
Lemma static_default_of_db :
  let c := examples.db 3 ∅ ∅ ∅ in
  GetPodHostName c 0 = "db-mysql-0.db-mysql"
  /\ spec.member_hostname (GetNameForResource c StatefulSet) 0
       (GetNameForResource c HeadlessSVC) (Namespace c) = "db-mysql-0.db-mysql.prod"
  /\ getHostForReplica {| cluster := c; namespace := "prod";
                          configHash := "1"; secretHash := "1" |} 0
     = "db-mysql-0.db-mysql.prod".
Proof.
  cbv zeta. repeat split; reflexivity.
Qed.

End topology_claims.

(** ** The reconciliation loop *)
Module sync_facts.
Import options orc events effects v1alpha1 mysqlcluster run_facts.

(** The hosts of the members from index [i] on, [n] of them. *)
Lemma hosts_from_S (f : cFactory) (i : Z) (n : nat) :
  hosts_from f i (S n) = getHostForReplica f i :: hosts_from f (i + 1) n.
Proof.
  unfold hosts_from. cbn [seq map]. f_equal.
  - f_equal. lia.
  - rewrite <- seq_shift, map_map. apply map_ext. intros j. f_equal. lia.
Qed.

Lemma sync_calls_cons (a : action) (t : list action) :
  sync_calls (a :: t)
  = match a with
    | ASyncFn fn r => (fn, r) :: sync_calls t
    | _ => sync_calls t
    end.
Proof. now destruct a. Qed.

Lemma warning_events_cons (a : action) (t : list action) :
  warning_events (a :: t)
  = match a with
    | AEvent EventWarning r m => (r, m) :: warning_events t
    | _ => warning_events t
    end.
Proof. destruct a as [| [] | | | |]; reflexivity. Qed.

Lemma discover_calls_cons (a : action) (t : list action) :
  discover_calls (a :: t)
  = match a with
    | ADiscover u h p _ => (u, h, p) :: discover_calls t
    | _ => discover_calls t
    end.
Proof. now destruct a. Qed.

Lemma sync_calls_app (t1 t2 : list action) :
  sync_calls (t1 ++ t2) = (sync_calls t1 ++ sync_calls t2)%list.
Proof. apply omap_app. Qed.

Lemma warning_events_app (t1 t2 : list action) :
  warning_events (t1 ++ t2) = (warning_events t1 ++ warning_events t2)%list.
Proof. apply omap_app. Qed.

Lemma discover_calls_app (t1 t2 : list action) :
  discover_calls (t1 ++ t2) = (discover_calls t1 ++ discover_calls t2)%list.
Proof. apply omap_app. Qed.

(** Read the three views off a trace that starts with known calls. *)
Ltac views :=
  repeat (rewrite ?sync_calls_cons, ?warning_events_cons, ?discover_calls_cons,
            ?sync_calls_app, ?warning_events_app, ?discover_calls_app;
          cbv beta iota).

Section Sync.
Context {W : Type} (E : Env W).
Variable MysqlPort : Z.

(** The registration loop calls [Discover] once for each of the [n] hosts,
    whatever the calls return, and then goes on with [rest]. *)
Lemma discoverNodes_run (f : cFactory) (uri : string) (rest : prog (option string))
    (n : nat) (i : Z) (w : W) :
  exists (td : list action) (w1 : W),
    trace E (discoverNodes MysqlPort f uri n i rest) w = (td ++ trace E rest w1)%list
    /\ result E (discoverNodes MysqlPort f uri n i rest) w = result E rest w1
    /\ discover_calls td = map (fun h => (uri, h, MysqlPort)) (hosts_from f i n)
    /\ sync_calls td = [] /\ warning_events td = [].
Proof.
  revert i w. induction n as [| n IH]; intros i w.
  - exists [], w. repeat split; reflexivity.
  - cbn [discoverNodes]. rewrite trace_OrcDiscover, result_OrcDiscover, hosts_from_S.
    destruct (env_Discover E uri (getHostForReplica f i) MysqlPort w) as [[e |] w0];
      cbn [fst snd]; rewrite ?trace_Glog, ?result_Glog;
      destruct (IH (i + 1) w0) as (td & w1 & Ht & Hr & Hd & Hs & Hw);
      rewrite Ht, Hr.
    + exists (ADiscover uri (getHostForReplica f i) MysqlPort (Some e)
              :: AGlog Warning ("Failed to register " +:+ getHostForReplica f i
                                +:+ " with orchestrator: " +:+ e) :: td), w1.
      views. rewrite Hd. auto.
    + exists (ADiscover uri (getHostForReplica f i) MysqlPort None :: td), w1.
      views. rewrite Hd. auto.
Qed.

(** The component loop: either every component is synced and the run goes
    on with [rest], or the run ends at the first component that fails. *)
Lemma syncComponents_run (comps : list component) (rest : prog (option string)) (w : W) :
  let t := trace E (syncComponents comps rest) w in
  let r := result E (syncComponents comps rest) w in
  (exists (ts : list action) (w1 : W),
      t = (ts ++ trace E rest w1)%list /\ r = result E rest w1
      /\ map fst (sync_calls ts) = map syncFn comps
      /\ Forall (fun x => x.2.2 = None) (sync_calls ts)
      /\ warning_events ts = []
      /\ Forall (fun a => is_orc_call a = false) ts)
  \/ (exists (k : nat) (comp : component) (good : list (SyncFnName * (string * option string)))
             (st e : string),
      comps !! k = Some comp
      /\ sync_calls t = (good ++ [(syncFn comp, (st, Some e))])%list
      /\ map fst good = map syncFn (take k comps)
      /\ Forall (fun x => x.2.2 = None) good
      /\ warning_events t = [(reasonFailed comp, syncFailed comp e)]
      /\ r = Some (syncFailed comp e)
      /\ Forall (fun a => is_orc_call a = false) t).
Proof.
  cbv zeta. revert w. induction comps as [| comp comps IH]; intros w.
  - left. exists [], w. repeat split; constructor.
  - cbn [syncComponents]. rewrite trace_CallSyncFn, result_CallSyncFn.
    destruct (env_syncFn E (syncFn comp) w) as [[state [e |]] w0]; cbn [fst snd].
    + right. exists 0%nat, comp, [], state, e.
      autorewrite with run. views. repeat split; repeat constructor.
    + rewrite trace_Glog, result_Glog.
      set (logged := AGlog InfoV2 _).
      assert (Hstep :
        exists ev : list action,
          trace E (if String.eqb state statusCreated || String.eqb state statusUpdated
                   then RecEvent EventNormal (reasonUpdated comp) ""
                          (syncComponents comps rest)
                   else syncComponents comps rest) w0
          = (ev ++ trace E (syncComponents comps rest) w0)%list
          /\ result E (if String.eqb state statusCreated || String.eqb state statusUpdated
                       then RecEvent EventNormal (reasonUpdated comp) ""
                              (syncComponents comps rest)
                       else syncComponents comps rest) w0
             = result E (syncComponents comps rest) w0
          /\ sync_calls ev = [] /\ warning_events ev = []
          /\ Forall (fun a => is_orc_call a = false) ev).
      { destruct (String.eqb state statusCreated || String.eqb state statusUpdated).
        - exists [AEvent EventNormal (reasonUpdated comp) ""].
          rewrite trace_RecEvent, result_RecEvent. repeat split; repeat constructor.
        - exists []. repeat split; constructor. }
      destruct Hstep as (ev & Hev & Hres & Hsync & Hwarn & Horc).
      rewrite Hev, Hres.
      destruct (IH w0) as [(ts & w1 & Ht & Hr & Hfst & Hok & Hw & Ho)
                          | (k & comp' & good & st & e & Hk & Hcalls & Hfst & Hok & Hw & Hr & Ho)].
      * left. exists (ASyncFn (syncFn comp) (state, None) :: logged :: ev ++ ts)%list, w1.
        rewrite Ht, Hr. repeat split.
        -- cbn [app]. now rewrite <- app_assoc.
        -- subst logged. views. rewrite Hsync. cbn [app map fst]. now f_equal.
        -- subst logged. views. rewrite Hsync. now constructor.
        -- subst logged. views. now rewrite Hwarn, Hw.
        -- repeat constructor. now apply Forall_app.
      * right. exists (S k), comp', ((syncFn comp, (state, None)) :: good), st, e.
        repeat split; try assumption.
        -- subst logged. views. now rewrite Hsync, Hcalls.
        -- cbn [map take fst]. now f_equal.
        -- now constructor.
        -- subst logged. views. now rewrite Hwarn, Hw.
        -- repeat constructor. now apply Forall_app.
Qed.

End Sync.

End sync_facts.

(** ** The claims about the reconciliation loop *)
Module sync_claims.
Import options orc events effects v1alpha1 mysqlcluster run_facts topology_facts sync_facts.

Section Sync.
Context {W : Type} (E : Env W).
Variable MysqlPort : Z.
Variable opt : Options.

Lemma registration_run (f : cFactory) (w : W) :
  result E (registration MysqlPort opt f) w = None
  /\ sync_calls (trace E (registration MysqlPort opt f) w) = []
  /\ warning_events (trace E (registration MysqlPort opt f) w) = []
  /\ discover_calls (trace E (registration MysqlPort opt f) w)
     = (if len_is_0 (OrchestratorUri opt) then []
        else map (fun h => (OrchestratorUri opt, h, MysqlPort))
               (hosts_from f 0 (Z.to_nat (ReadyNodes (Status (cluster f)))))).
Proof.
  unfold registration, GetOrcUri. destruct (len_is_0 (OrchestratorUri opt)); cbn [negb].
  - repeat split; reflexivity.
  - destruct (discoverNodes_run E MysqlPort f (OrchestratorUri opt) (Ret None)
                (Z.to_nat (ReadyNodes (Status (cluster f)))) 0 w)
      as (td & w1 & Ht & Hr & Hd & Hs & Hw).
    rewrite Ht, Hr, trace_Ret, app_nil_r. auto.
Qed.

Lemma Sync_eq (f : cFactory) :
  Sync MysqlPort opt f = syncComponents (getComponents f) (registration MysqlPort opt f).
Proof. reflexivity. Qed.

Lemma lookup_failed_call (good : list (SyncFnName * (string * option string)))
    (bad : SyncFnName * (string * option string)) (k : nat) (fn : SyncFnName) (st e : string) :
  Forall (fun x => x.2.2 = None) good ->
  (good ++ [bad])%list !! k = Some (fn, (st, Some e)) ->
  k = length good /\ bad = (fn, (st, Some e)).
Proof.
  intros Hgood Hk. destruct (decide (k < length good)%nat) as [Hlt | Hge].
  - rewrite lookup_app_l in Hk by assumption.
    eapply Forall_lookup_1 in Hgood; [| exact Hk]. discriminate.
  - rewrite lookup_app_r in Hk by lia.
    destruct (k - length good)%nat as [| j] eqn:Hj; [| now destruct j].
    cbn in Hk. injection Hk as ->. split; [lia | reflexivity].
Qed.

Lemma no_orc_call_no_discover (t : list action) :
  Forall (fun a => is_orc_call a = false) t -> discover_calls t = [].
Proof.
  induction 1 as [| a t Ha _ IH]; [reflexivity |].
  rewrite discover_calls_cons. now destruct a.
Qed.

(** When no sync call of the run has failed, all components were synced,
    the registration ran, and the result is nil. *)
Lemma Sync_all_synced (f : cFactory) (w : W) :
  Forall (fun x => x.2.2 = None) (sync_calls (trace E (Sync MysqlPort opt f) w)) ->
  map fst (sync_calls (trace E (Sync MysqlPort opt f) w)) = map syncFn (getComponents f)
  /\ discover_calls (trace E (Sync MysqlPort opt f) w)
     = (if len_is_0 (OrchestratorUri opt) then []
        else map (fun h => (OrchestratorUri opt, h, MysqlPort))
               (hosts_from f 0 (Z.to_nat (ReadyNodes (Status (cluster f))))))
  /\ result E (Sync MysqlPort opt f) w = None.
Proof.
  rewrite Sync_eq.
  destruct (syncComponents_run E (getComponents f) (registration MysqlPort opt f) w)
    as [(ts & w1 & Ht & Hr & Hfst & Hok & Hw & Horc)
       | (k0 & comp & good & st0 & e0 & Hk0 & Hcalls & Hfst & Hok & Hw & Hr & _)].
  - intros _.
    destruct (registration_run f w1) as (Hres & Hs & _ & Hd).
    rewrite Ht, Hr, sync_calls_app, discover_calls_app, Hs, Hd, app_nil_r.
    rewrite (no_orc_call_no_discover ts Horc). auto.
  - intros Hall. rewrite Hcalls in Hall.
    apply Forall_app in Hall as [_ Hbad]. apply Forall_cons in Hbad as [Hbad _].
    discriminate.
Qed.

(** Without an orchestrator address [Sync] makes no orchestrator call. *)
Lemma Sync_unconfigured (f : cFactory) (w : W) :
  OrchestratorUri opt = "" ->
  Forall (fun a => is_orc_call a = false) (trace E (Sync MysqlPort opt f) w).
Proof.
  intros Huri. rewrite Sync_eq.
  destruct (syncComponents_run E (getComponents f) (registration MysqlPort opt f) w)
    as [(ts & w1 & Ht & _ & _ & _ & _ & Horc)
       | (k0 & comp & good & st0 & e0 & _ & _ & _ & _ & _ & _ & Horc)].
  - rewrite Ht. unfold registration, GetOrcUri. rewrite Huri. cbn [len_is_0 negb].
    now rewrite trace_Ret, app_nil_r.
  - exact Horc.
Qed.

End Sync.

(** C2.  [Sync] runs the components in the fixed order secret,
    configuration, headless service, stateful set, backup cron job.  If the
    sync function of the k-th component returns an error, no component after
    the k-th is synced, exactly one warning event is recorded, with the
    failure reason of that component, and [Sync] returns the error wrapped
    with the name of the component's resource; if every sync function
    succeeds, [Sync] returns nil. *)
Theorem C2_fail_fast {W : Type} (E : Env W) (w : W) (MysqlPort : Z) (opt : Options)
    (f : cFactory) :
  let t := trace E (Sync MysqlPort opt f) w in
  let r := result E (Sync MysqlPort opt f) w in
  map syncFn (getComponents f)
  = [syncClusterSecret; syncConfigMysqlMap; syncHeadlessService; syncStatefulSet;
     syncBackupCronJob]
  /\ (forall (k : nat) (fn : SyncFnName) (st e : string),
        sync_calls t !! k = Some (fn, (st, Some e)) ->
        exists comp : component,
          getComponents f !! k = Some comp /\ fn = syncFn comp
          /\ map fst (sync_calls t) = map syncFn (take (S k) (getComponents f))
          /\ warning_events t
             = [(reasonFailed comp, name comp +:+ " sync failed: " +:+ e)]
          /\ r = Some (name comp +:+ " sync failed: " +:+ e))
  /\ (Forall (fun x => x.2.2 = None) (sync_calls t) -> r = None).
Proof.
  cbv zeta. split; [reflexivity |]. rewrite Sync_eq.
  destruct (syncComponents_run E (getComponents f) (registration MysqlPort opt f) w)
    as [(ts & w1 & Ht & Hr & Hfst & Hok & Hw & _)
       | (k0 & comp & good & st0 & e0 & Hk0 & Hcalls & Hfst & Hok & Hw & Hr & _)].
  - destruct (registration_run E MysqlPort opt f w1) as (Hres & Hs & Hwr & _).
    assert (Hall : sync_calls (trace E (syncComponents (getComponents f)
                                         (registration MysqlPort opt f)) w)
                   = sync_calls ts)
      by now rewrite Ht, sync_calls_app, Hs, app_nil_r.
    split.
    + intros k fn st e Hk. rewrite Hall in Hk.
      eapply Forall_lookup_1 in Hok; [| exact Hk]. discriminate.
    + intros _. now rewrite Hr.
  - split.
    + intros k fn st e Hk. rewrite Hcalls in Hk.
      apply lookup_failed_call in Hk as [Hlen [= <- <- <-]]; [| assumption].
      assert (Hk : k = k0).
      { rewrite Hlen, <- (length_map fst), Hfst, length_map, length_take.
        apply lookup_lt_Some in Hk0. lia. }
      subst k0. exists comp. repeat split; try assumption.
      rewrite Hcalls, map_app, Hfst. cbn [map fst].
      erewrite take_S_r by eassumption. now rewrite map_app.
    + intros Hall. rewrite Hcalls in Hall.
      apply Forall_app in Hall as [_ Hbad]. apply Forall_cons in Hbad as [Hbad _].
      discriminate.
Qed.

(** The headless service, the third component, fails. *)
Lemma C2_fail_fast_witness :
  let E := examples.env "created" (Some (syncHeadlessService, "conflict")) ""
             (inr "no master") (inr "no replicas") in
  let f := {| cluster := examples.db 3 ∅ ∅ ∅; namespace := "prod";
              configHash := "1"; secretHash := "1" |} in
  let t := trace E (Sync 3306 (examples.opts "http://orc") f) tt in
  map fst (sync_calls t) = [syncClusterSecret; syncConfigMysqlMap; syncHeadlessService]
  /\ warning_events t = [(EventReasonServiceFailed, "db-mysql sync failed: conflict")]
  /\ result E (Sync 3306 (examples.opts "http://orc") f) tt
     = Some "db-mysql sync failed: conflict".
Proof.
  cbv zeta.
  destruct (C2_fail_fast
              (examples.env "created" (Some (syncHeadlessService, "conflict")) ""
                 (inr "no master") (inr "no replicas"))
              tt 3306 (examples.opts "http://orc")
              {| cluster := examples.db 3 ∅ ∅ ∅; namespace := "prod";
                 configHash := "1"; secretHash := "1" |}) as (_ & Hfail & _).
  destruct (Hfail 2%nat syncHeadlessService "faild" "conflict" eq_refl)
    as (comp & Hcomp & _ & Hcalls & Hwarn & Hres).
  injection Hcomp as <-.
  split; [exact Hcalls |]. split; [exact Hwarn | exact Hres].
Defined.

(** C6.  When every component is synced and an orchestrator is configured,
    [Sync] calls [Discover] for each of the first [ReadyNodes] members, in
    order, whatever the calls return, and returns nil. *)
Theorem C6_registration_best_effort {W : Type} (E : Env W) (w : W) (MysqlPort : Z)
    (opt : Options) (f : cFactory) :
  let t := trace E (Sync MysqlPort opt f) w in
  OrchestratorUri opt <> "" ->
  Forall (fun x => x.2.2 = None) (sync_calls t) ->
  map fst (sync_calls t) = map syncFn (getComponents f)
  /\ discover_calls t
     = map (fun j : nat => (OrchestratorUri opt, getHostForReplica f (0 + Z.of_nat j), MysqlPort))
         (seq 0 (Z.to_nat (ReadyNodes (Status (cluster f)))))
  /\ result E (Sync MysqlPort opt f) w = None.
Proof.
  cbv zeta. intros Huri Hall.
  destruct (Sync_all_synced E MysqlPort opt f w Hall) as (Hfst & Hd & Hres).
  apply len_is_0_false in Huri. rewrite Huri in Hd.
  repeat split; try assumption.
  rewrite Hd. unfold hosts_from. now rewrite map_map.
Qed.

(** Three ready nodes; [Discover] fails for the second. *)
Lemma C6_registration_best_effort_witness :
  let E := examples.env "up-to-date" None "db-mysql-1.db-mysql.prod"
             (inr "no master") (inr "no replicas") in
  let f := {| cluster := examples.db 3 ∅ ∅ ∅; namespace := "prod";
              configHash := "1"; secretHash := "1" |} in
  let t := trace E (Sync 3306 (examples.opts "http://orc") f) tt in
  In (ADiscover "http://orc" "db-mysql-1.db-mysql.prod" 3306 (Some "connection refused")) t
  /\ discover_calls t
     = [("http://orc", "db-mysql-0.db-mysql.prod", 3306);
        ("http://orc", "db-mysql-1.db-mysql.prod", 3306);
        ("http://orc", "db-mysql-2.db-mysql.prod", 3306)]
  /\ result E (Sync 3306 (examples.opts "http://orc") f) tt = None.
Proof.
  cbv zeta.
  destruct (C6_registration_best_effort
              (examples.env "up-to-date" None "db-mysql-1.db-mysql.prod"
                 (inr "no master") (inr "no replicas"))
              tt 3306 (examples.opts "http://orc")
              {| cluster := examples.db 3 ∅ ∅ ∅; namespace := "prod";
                 configHash := "1"; secretHash := "1" |})
    as (_ & Hcalls & Hres).
  - discriminate.
  - vm_compute. repeat constructor.
  - split; [| split; [exact Hcalls | exact Hres]].
    vm_compute. tauto.
Defined.

(** C4 (amended).  Whether an orchestrator is configured is decided by the
    [OrchestratorUri] of the option set of the process, not by the cluster
    definition.  When it is empty no call to the orchestrator is made: both
    resolvers return their static defaults and [Sync] registers nothing.
    When it is not empty [GetMasterHost] queries the orchestrator,
    [GetHealtySlaveHost] queries it when there is a ready node, and [Sync]
    registers the ready members once every component is synced. *)
Theorem C4_orchestrator_from_options {W : Type} (E : Env W) (w : W) (MysqlPort : Z)
    (opt : Options) (f : cFactory) :
  let c := cluster f in
  GetOrcUri opt (Spec c) = OrchestratorUri opt
  /\ (OrchestratorUri opt = "" ->
      trace E (GetMasterHost opt c) w = []
      /\ result E (GetMasterHost opt c) w = GetPodHostName c 0
      /\ Forall (fun a => is_orc_call a = false) (trace E (GetHealtySlaveHost opt c) w)
      /\ result E (GetHealtySlaveHost opt c) w
         = (if ReadyNodes (Status c) <? 1 then GetPodHostName c 0
            else GetPodHostName c (ReadyNodes (Status c) - 1))
      /\ Forall (fun a => is_orc_call a = false) (trace E (Sync MysqlPort opt f) w))
  /\ (OrchestratorUri opt <> "" ->
      (exists r t,
          trace E (GetMasterHost opt c) w
          = AMaster (OrchestratorUri opt) (Name c +:+ "." +:+ Namespace c) r :: t)
      /\ (1 <= ReadyNodes (Status c) ->
          exists r t,
            trace E (GetHealtySlaveHost opt c) w
            = AGlog InfoV2 "[GetHealtySlaveHost]: Use orchestrator to get slave host."
              :: AReplicas (OrchestratorUri opt) (Name c) r :: t)
      /\ (Forall (fun x => x.2.2 = None) (sync_calls (trace E (Sync MysqlPort opt f) w)) ->
          map (fun d => d.1.1) (discover_calls (trace E (Sync MysqlPort opt f) w))
          = repeat (OrchestratorUri opt) (Z.to_nat (ReadyNodes (Status c))))).
Proof.
  cbv zeta. split; [reflexivity |]. split.
  - intros Huri.
    destruct (GetMasterHost_unconfigured E opt (cluster f) w Huri) as [Hm Hmt].
    destruct (GetHealtySlaveHost_unconfigured E opt (cluster f) w Huri) as [Hs Hst].
    repeat split; try assumption.
    now apply Sync_unconfigured.
  - intros Huri. split; [| split].
    + destruct (GetMasterHost_configured E opt (cluster f) w Huri) as [_ [t Ht]]. eauto.
    + intros Hready.
      destruct (GetHealtySlaveHost_configured E opt (cluster f) w Huri Hready) as [_ [t Ht]].
      eauto.
    + intros Hall.
      destruct (Sync_all_synced E MysqlPort opt f w Hall) as (_ & Hd & _).
      apply len_is_0_false in Huri. rewrite Huri in Hd.
      rewrite Hd, map_map. cbn [fst]. unfold hosts_from.
      generalize (Z.to_nat (ReadyNodes (Status (cluster f)))). intros n.
      generalize 0%nat. induction n as [| n IH]; intros s; [reflexivity |].
      cbn [seq map repeat]. now rewrite IH.
Qed.

(** One definition under two option sets. *)
Lemma C4_orchestrator_from_options_witness :
  let E := examples.env "up-to-date" None ""
             (inl (examples.replica "db-mysql-1.db-mysql.prod" 0)) (inl []) in
  let f := {| cluster := examples.db 3 ∅ ∅ ∅; namespace := "prod";
              configHash := "1"; secretHash := "1" |} in
  (trace E (GetMasterHost (examples.opts "") (cluster f)) tt = []
   /\ result E (GetMasterHost (examples.opts "") (cluster f)) tt
      = GetPodHostName (cluster f) 0)
  /\ (exists r t,
        trace E (GetMasterHost (examples.opts "http://orc") (cluster f)) tt
        = AMaster "http://orc" "db.prod" r :: t).
Proof.
  cbv zeta.
  destruct (C4_orchestrator_from_options
              (examples.env "up-to-date" None ""
                 (inl (examples.replica "db-mysql-1.db-mysql.prod" 0)) (inl []))
              tt 3306 (examples.opts "")
              {| cluster := examples.db 3 ∅ ∅ ∅; namespace := "prod";
                 configHash := "1"; secretHash := "1" |}) as (_ & Hoff & _).
  destruct (Hoff eq_refl) as (Ht & Hr & _).
  destruct (C4_orchestrator_from_options
              (examples.env "up-to-date" None ""
                 (inl (examples.replica "db-mysql-1.db-mysql.prod" 0)) (inl []))
              tt 3306 (examples.opts "http://orc")
              {| cluster := examples.db 3 ∅ ∅ ∅; namespace := "prod";
                 configHash := "1"; secretHash := "1" |}) as (_ & _ & Hon).
  destruct (Hon ltac:(discriminate)) as (Hm & _).
  split; [split; [exact Ht | exact Hr] | exact Hm].
Defined.

(** C4 as stated fails: the cluster definition carries no orchestrator
    address, and one and the same definition is resolved without the
    orchestrator under one option set and with it under another. *)
Lemma C4_counterexample :
  let E := examples.env "up-to-date" None ""
             (inl (examples.replica "db-mysql-1.db-mysql.prod" 0)) (inl []) in
  let c := examples.db 3 ∅ ∅ ∅ in
  existsb is_orc_call (trace E (GetMasterHost (examples.opts "") c) tt) = false
  /\ result E (GetMasterHost (examples.opts "") c) tt = "db-mysql-0.db-mysql"
  /\ existsb is_orc_call (trace E (GetMasterHost (examples.opts "http://orc") c) tt) = true
  /\ result E (GetMasterHost (examples.opts "http://orc") c) tt
     = "db-mysql-1.db-mysql.prod".
Proof.
  cbv zeta. repeat split; reflexivity.
Qed.

End sync_claims.

(** ** More on defaulting *)
Module defaults_more.
Import resource options v1alpha1 defaults_facts.

(** X1.  [UpdateDefaults] is idempotent: defaulting a defaulted definition
    returns the same definition and the same (nil) error. *)
Theorem X1_UpdateDefaults_idempotent (c : MysqlCluster) (opt : Options) :
  UpdateDefaults (UpdateDefaults c opt).1 opt = UpdateDefaults c opt.
Proof. apply UpdateDefaults_idempotent. Qed.

(** X2.  [UpdateDefaults] never fails, and the definition it leaves has
    pod requests, an anti-affinity rule, an access mode, volume requests and
    both sizing keys, whatever the definition was; the version and the pull
    policy are filled when the option set has them. *)
Theorem X2_UpdateDefaults_complete (c : MysqlCluster) (opt : Options) :
  let c' := (UpdateDefaults c opt).1 in
  (UpdateDefaults c opt).2 = None
  /\ Requests (Resources (PodSpec_ (Spec c'))) <> ∅
  /\ PodAntiAffinity_ (Affinity_ (PodSpec_ (Spec c'))) <> None
  /\ AccessModes (VolumeSpec_ (Spec c')) <> []
  /\ Requests (VolumeResources (VolumeSpec_ (Spec c'))) <> ∅
  /\ is_Some (MysqlConf (Spec c') !! "innodb-buffer-pool-size")
  /\ is_Some (MysqlConf (Spec c') !! "innodb-log-file-size")
  /\ (MysqlImageTag opt <> "" -> MysqlVersion (Spec c') <> "")
  /\ (options.ImagePullPolicy opt <> "" -> ImagePullPolicy (PodSpec_ (Spec c')) <> "").
Proof.
  cbv zeta. rewrite UpdateDefaults_eq, ClusterSpec_UpdateDefaults_eq,
    PodSpec_UpdateDefaults_eq, VolumeSpec_UpdateDefaults_eq.
  cbn [fst snd Name Namespace Status Spec SecretName MysqlVersion MysqlConf PodSpec_
         VolumeSpec_ ImagePullPolicy Resources Affinity_ AccessModes VolumeResources].
  rewrite defaultedConf_buffer, defaultedConf_log.
  repeat split; eauto.
  - case_decide as Hsize.
    + intros Hempty. apply defaultPodResources_size. now rewrite Hempty.
    + intros Hempty. apply Hsize. now rewrite Hempty.
  - destruct (PodAntiAffinity_ (Affinity_ (PodSpec_ (Spec c)))) eqn:Hpaa;
      [now rewrite Hpaa | discriminate].
  - now destruct (AccessModes (VolumeSpec_ (Spec c))).
  - case_decide as Hsize.
    + intros Hempty. apply defaultVolumeResources_size. now rewrite Hempty.
    + intros Hempty. apply Hsize. now rewrite Hempty.
  - intros Htag. destruct (len_is_0 (MysqlVersion (Spec c))) eqn:Hv; [assumption |].
    now apply len_is_0_false.
  - intros Hpol. destruct (len_is_0 (ImagePullPolicy (PodSpec_ (Spec c)))) eqn:Hp;
      [assumption |]. now apply len_is_0_false.
Qed.

Lemma dom_defaultedConf (conf : gmap string string) (mem : Z) :
  dom (defaultedConf conf mem)
  = dom conf ∪ {["innodb-buffer-pool-size"; "innodb-log-file-size"]}.
Proof.
  apply set_eq. intros k. rewrite elem_of_union, !elem_of_dom.
  rewrite elem_of_union, !elem_of_singleton.
  split.
  - intros [v Hk].
    destruct (decide (k = "innodb-buffer-pool-size")) as [-> | Hbp]; [tauto |].
    destruct (decide (k = "innodb-log-file-size")) as [-> | Hlog]; [tauto |].
    left. unfold defaultedConf in Hk.
    destruct (conf !! "innodb-buffer-pool-size");
      repeat match type of Hk with
             | context [match ?m !! "innodb-log-file-size" with _ => _ end] =>
                 destruct (m !! "innodb-log-file-size")
             end;
      rewrite ?lookup_insert_ne in Hk by congruence; eauto.
  - intros [[v Hk] | [-> | ->]].
    + exists v. now apply defaultedConf_keeps.
    + rewrite defaultedConf_buffer. eauto.
    + rewrite defaultedConf_log. eauto.
Qed.

(** X3.  [UpdateDefaults] adds the two sizing keys to the configuration and
    nothing else: the keys afterwards are the keys before and the two
    sizing keys, and every key that was set keeps its value. *)
Theorem X3_conf_keys (c : MysqlCluster) (opt : Options) :
  dom (MysqlConf (Spec (UpdateDefaults c opt).1))
  = dom (MysqlConf (Spec c)) ∪ {["innodb-buffer-pool-size"; "innodb-log-file-size"]}
  /\ (forall k v, MysqlConf (Spec c) !! k = Some v ->
                  MysqlConf (Spec (UpdateDefaults c opt).1) !! k = Some v).
Proof.
  rewrite UpdateDefaults_conf. split; [apply dom_defaultedConf |].
  intros k v. apply defaultedConf_keeps.
Qed.

(** X4.  A definition in which every defaulted field is set is a fixed
    point of [UpdateDefaults]. *)
Theorem X4_fully_specified_fixed (c : MysqlCluster) (opt : Options) :
  MysqlVersion (Spec c) <> "" ->
  ImagePullPolicy (PodSpec_ (Spec c)) <> "" ->
  Requests (Resources (PodSpec_ (Spec c))) <> ∅ ->
  PodAntiAffinity_ (Affinity_ (PodSpec_ (Spec c))) <> None ->
  is_Some (MysqlConf (Spec c) !! "innodb-buffer-pool-size") ->
  is_Some (MysqlConf (Spec c) !! "innodb-log-file-size") ->
  AccessModes (VolumeSpec_ (Spec c)) <> [] ->
  Requests (VolumeResources (VolumeSpec_ (Spec c))) <> ∅ ->
  UpdateDefaults c opt = (c, None).
Proof.
  intros Hver Hpol Hreq Hpaa [bp Hbp] [lg Hlog] Hmodes Hvreq.
  rewrite UpdateDefaults_eq, ClusterSpec_UpdateDefaults_eq,
    PodSpec_UpdateDefaults_eq, VolumeSpec_UpdateDefaults_eq.
  cbn [fst].
  apply len_is_0_false in Hver, Hpol. rewrite Hver, Hpol.
  unfold defaultedConf. rewrite Hbp, Hlog.
  rewrite decide_False by (intros Hs; now apply map_size_empty_inv in Hs).
  rewrite decide_False by (intros Hs; now apply map_size_empty_inv in Hs).
  destruct c as [n ns [sn ver conf [ipp res [paa]] [modes vres]] st].
  cbn in *. destruct paa; [| congruence]. destruct modes; [congruence |]. reflexivity.
Qed.

Lemma X4_fully_specified_fixed_witness :
  UpdateDefaults (UpdateDefaults (examples.db 3 ∅ ∅ ∅) (examples.opts "")).1 (examples.opts "")
  = ((UpdateDefaults (examples.db 3 ∅ ∅ ∅) (examples.opts "")).1, None).
Proof.
  apply (X4_fully_specified_fixed
           (UpdateDefaults (examples.db 3 ∅ ∅ ∅) (examples.opts "")).1 (examples.opts ""));
    try discriminate; vm_compute; eauto.
Defined.

(** X5.  Outside the configuration, [UpdateDefaults] fills only what is
    unset: the name, the namespace, the status and the secret name are
    never touched; a version, a pull policy, an anti-affinity rule and the
    access modes that are set are kept; and a resource block whose requests
    are set is kept whole, limits included. *)
Theorem X5_set_fields_kept (c : MysqlCluster) (opt : Options) :
  let c' := (UpdateDefaults c opt).1 in
  Name c' = Name c /\ Namespace c' = Namespace c /\ Status c' = Status c
  /\ SecretName (Spec c') = SecretName (Spec c)
  /\ (MysqlVersion (Spec c) <> "" -> MysqlVersion (Spec c') = MysqlVersion (Spec c))
  /\ (ImagePullPolicy (PodSpec_ (Spec c)) <> "" ->
      ImagePullPolicy (PodSpec_ (Spec c')) = ImagePullPolicy (PodSpec_ (Spec c)))
  /\ (Requests (Resources (PodSpec_ (Spec c))) <> ∅ ->
      Resources (PodSpec_ (Spec c')) = Resources (PodSpec_ (Spec c)))
  /\ (PodAntiAffinity_ (Affinity_ (PodSpec_ (Spec c))) <> None ->
      Affinity_ (PodSpec_ (Spec c')) = Affinity_ (PodSpec_ (Spec c)))
  /\ (AccessModes (VolumeSpec_ (Spec c)) <> [] ->
      AccessModes (VolumeSpec_ (Spec c')) = AccessModes (VolumeSpec_ (Spec c)))
  /\ (Requests (VolumeResources (VolumeSpec_ (Spec c))) <> ∅ ->
      VolumeResources (VolumeSpec_ (Spec c')) = VolumeResources (VolumeSpec_ (Spec c))).
Proof.
  cbv zeta.
  destruct (UpdateDefaults_keeps c opt)
    as (Hn & Hns & Hst & Hsn & Hver & _ & Hpol & Hres & Haff & Hmodes & Hvres).
  repeat split; assumption.
Qed.

(** Limits of 2 GiB next to a request of 1 GiB of memory. *)
Lemma X5_set_fields_kept_witness :
  let c := examples.db 3 (examples.memory (2 * 2 ^ 30)) (examples.memory (2 ^ 30)) ∅ in
  Resources (PodSpec_ (Spec (UpdateDefaults c (examples.opts "")).1))
  = Resources (PodSpec_ (Spec c)).
Proof.
  cbv zeta.
  destruct (X5_set_fields_kept
              (examples.db 3 (examples.memory (2 * 2 ^ 30)) (examples.memory (2 ^ 30)) ∅)
              (examples.opts "")) as (_ & _ & _ & _ & _ & _ & Hres & _).
  apply Hres. vm_compute. discriminate.
Defined.

(** X6.  Requests without a memory entry are not completed: the pod
    requests stay as they are, and both sizing keys are computed as for a
    memory request of zero bytes, 128 MiB for the buffer pool and 48 MiB for
    the log file. *)
Theorem X6_requests_without_memory (c : MysqlCluster) (opt : Options) :
  Requests (Resources (PodSpec_ (Spec c))) <> ∅ ->
  Requests (Resources (PodSpec_ (Spec c))) !! ResourceMemory = None ->
  MysqlConf (Spec c) !! "innodb-buffer-pool-size" = None ->
  MysqlConf (Spec c) !! "innodb-log-file-size" = None ->
  let c' := (UpdateDefaults c opt).1 in
  Requests (Resources (PodSpec_ (Spec c'))) = Requests (Resources (PodSpec_ (Spec c)))
  /\ MysqlConf (Spec c') !! "innodb-buffer-pool-size" = Some "134217728"
  /\ MysqlConf (Spec c') !! "innodb-log-file-size" = Some "50331648".
Proof.
  intros Hreq Hmem Hbp Hlog. cbv zeta.
  assert (Hsize : size (Requests (Resources (PodSpec_ (Spec c)))) <> 0%nat)
    by (intros Hs; now apply map_size_empty_inv in Hs).
  split.
  { rewrite UpdateDefaults_eq, ClusterSpec_UpdateDefaults_eq. cbn [fst Spec PodSpec_].
    now rewrite PodSpec_UpdateDefaults_requests_set. }
  rewrite UpdateDefaults_conf. unfold memoryValue.
  rewrite PodSpec_UpdateDefaults_requests_set, Hmem by assumption.
  rewrite defaultedConf_buffer, defaultedConf_log, Hbp, Hlog. cbn [default].
  split; vm_compute; reflexivity.
Qed.

(** Only a CPU request. *)
Lemma X6_requests_without_memory_witness :
  let c := examples.db 3 ∅ {[ ResourceCPU := of_units 2 ]} ∅ in
  let c' := (UpdateDefaults c (examples.opts "")).1 in
  Requests (Resources (PodSpec_ (Spec c'))) = Requests (Resources (PodSpec_ (Spec c)))
  /\ MysqlConf (Spec c') !! "innodb-buffer-pool-size" = Some "134217728"
  /\ MysqlConf (Spec c') !! "innodb-log-file-size" = Some "50331648".
Proof.
  apply (X6_requests_without_memory
           (examples.db 3 ∅ {[ ResourceCPU := of_units 2 ]} ∅) (examples.opts "")).
  - vm_compute. discriminate.
  - vm_compute. reflexivity.
  - reflexivity.
  - reflexivity.
Defined.

Lemma buffer_pool_size_mono (M1 M2 : Z) :
  M1 <= M2 -> spec.buffer_pool_size M1 <= spec.buffer_pool_size M2.
Proof.
  intros HM. unfold spec.buffer_pool_size, spec.GiB, spec.MiB.
  change (2 ^ 30) with 1073741824. change (2 ^ 20) with 1048576.
  repeat match goal with
         | |- context [Z.ltb ?a ?b] => destruct (Z.ltb_spec a b)
         | |- context [Z.leb ?a ?b] => destruct (Z.leb_spec a b)
         end; try lia; Z.div_mod_to_equations; lia.
Qed.

(** X7.  The buffer pool grows with the memory request: for requests
    [M1 <= M2] with [3 * M2 < 2 ^ 53] the size computed for [M1] is at most
    the size computed for [M2], across the tier boundaries too. *)
Theorem X7_bufferSize_monotone (M1 M2 : Z) :
  M1 <= M2 -> 3 * M2 < 2 ^ 53 -> bufferSize M1 <= bufferSize M2.
Proof.
  intros HM Hbound. rewrite !bufferSize_spec by lia. now apply buffer_pool_size_mono.
Qed.

Lemma X7_bufferSize_monotone_witness :
  bufferSize (4 * 2 ^ 30) <= bufferSize (4 * 2 ^ 30 + 1).
Proof.
  apply (X7_bufferSize_monotone (4 * 2 ^ 30) (4 * 2 ^ 30 + 1)).
  - lia.
  - vm_compute. reflexivity.
Defined.

(** X8.  The buffer pool is never below 128 MiB, and it fits the memory
    request exactly when the request is at least 128 MiB: a smaller request
    gets a buffer pool larger than itself ([3 * M < 2 ^ 53]). *)
Theorem X8_bufferSize_fits (M : Z) :
  3 * M < 2 ^ 53 ->
  128 * 2 ^ 20 <= bufferSize M /\ (bufferSize M <= M <-> 128 * 2 ^ 20 <= M).
Proof.
  intros Hbound. rewrite bufferSize_spec by assumption.
  unfold spec.buffer_pool_size, spec.GiB, spec.MiB.
  change (2 ^ 30) with 1073741824. change (2 ^ 20) with 1048576.
  repeat match goal with
         | |- context [Z.ltb ?a ?b] => destruct (Z.ltb_spec a b)
         | |- context [Z.leb ?a ?b] => destruct (Z.leb_spec a b)
         end; try lia; Z.div_mod_to_equations; lia.
Qed.

Lemma X8_bufferSize_fits_witness :
  128 * 2 ^ 20 <= bufferSize (64 * 2 ^ 20)
  /\ (bufferSize (64 * 2 ^ 20) <= 64 * 2 ^ 20 <-> 128 * 2 ^ 20 <= 64 * 2 ^ 20).
Proof.
  apply (X8_bufferSize_fits (64 * 2 ^ 20)). vm_compute. reflexivity.
Defined.

(** X9.  Outside the tier 4 GiB < M <= 8 GiB the log file size that
    [UpdateDefaults] stores for a present memory request is 48 MiB below
    1 GiB, 128 MiB up to 4 GiB, 1 GiB above 8 GiB and up to 16 GiB, and
    2 GiB above 16 GiB. *)
Theorem X9_log_file_size_tiers (c : MysqlCluster) (opt : Options) (q : Quantity) :
  MysqlConf (Spec c) !! "innodb-log-file-size" = None ->
  Requests (Resources (PodSpec_ (Spec c))) !! ResourceMemory = Some q ->
  Value q <= 4 * 2 ^ 30 \/ 8 * 2 ^ 30 < Value q ->
  MysqlConf (Spec (UpdateDefaults c opt).1) !! "innodb-log-file-size"
  = Some (strconv.FormatInt
            (if Value q <? 2 ^ 30 then 48 * 2 ^ 20
             else if Value q <=? 4 * 2 ^ 30 then 128 * 2 ^ 20
             else if Value q <=? 16 * 2 ^ 30 then 2 ^ 30
             else 2 * 2 ^ 30)).
Proof.
  intros Hkey Hq HM.
  rewrite UpdateDefaults_conf, defaultedConf_log, Hkey. cbn [default].
  rewrite (memoryValue_present _ _ _ q Hq). do 2 f_equal.
  unfold logFileSize. change GB with (2 ^ 30). change MB with (2 ^ 20).
  change (2 ^ 30) with 1073741824 in *. change (2 ^ 20) with 1048576.
  repeat match goal with
         | |- context [Z.ltb ?a ?b] => destruct (Z.ltb_spec a b)
         | |- context [Z.leb ?a ?b] => destruct (Z.leb_spec a b)
         end; lia.
Qed.

Lemma X9_log_file_size_tiers_witness :
  MysqlConf (Spec (UpdateDefaults (examples.db 3 ∅ (examples.memory (32 * 2 ^ 30)) ∅)
                     (examples.opts "")).1) !! "innodb-log-file-size"
  = Some (strconv.FormatInt
            (if Value (of_units (32 * 2 ^ 30)) <? 2 ^ 30 then 48 * 2 ^ 20
             else if Value (of_units (32 * 2 ^ 30)) <=? 4 * 2 ^ 30 then 128 * 2 ^ 20
             else if Value (of_units (32 * 2 ^ 30)) <=? 16 * 2 ^ 30 then 2 ^ 30
             else 2 * 2 ^ 30)).
Proof.
  apply (X9_log_file_size_tiers
           (examples.db 3 ∅ (examples.memory (32 * 2 ^ 30)) ∅) (examples.opts "")
           (of_units (32 * 2 ^ 30))).
  - reflexivity.
  - vm_compute. reflexivity.
  - right. vm_compute. reflexivity.
Defined.

(** X10.  The image of a defaulted definition is the image of the option
    set with the declared version as its tag, and with the tag of the
    option set when no version is declared; defaulting again does not
    change it. *)
Theorem X10_GetMysqlImage_defaulted (c : MysqlCluster) (opt : Options) :
  let c' := (UpdateDefaults c opt).1 in
  GetMysqlImage opt (Spec c')
  = MysqlImage opt +:+ ":"
    +:+ (if len_is_0 (MysqlVersion (Spec c)) then MysqlImageTag opt else MysqlVersion (Spec c))
  /\ GetMysqlImage opt (Spec (UpdateDefaults c' opt).1) = GetMysqlImage opt (Spec c').
Proof.
  cbv zeta. split.
  - now rewrite UpdateDefaults_eq, ClusterSpec_UpdateDefaults_eq.
  - now rewrite UpdateDefaults_idempotent.
Qed.

End defaults_more.

(** ** Names, host names and labels *)
Module names_more.
Import options orc events effects v1alpha1 mysqlcluster run_facts topology_facts.

Lemma append_cons (x : Ascii.ascii) (a b : string) : String x a +:+ b = String x (a +:+ b).
Proof. reflexivity. Qed.

Lemma length_append (a b : string) :
  String.length (a +:+ b) = (String.length a + String.length b)%nat.
Proof.
  induction a as [| x a IH]; [reflexivity |].
  rewrite append_cons. cbn [String.length]. now rewrite IH.
Qed.

(** A common suffix can be cancelled. *)
Lemma append_inv_tail (x y b : string) : x +:+ b = y +:+ b -> x = y.
Proof.
  revert y. induction x as [| a x IH]; intros [| c y] Heq.
  - reflexivity.
  - apply (f_equal String.length) in Heq.
    rewrite !length_append in Heq. cbn [String.length] in Heq. lia.
  - apply (f_equal String.length) in Heq.
    rewrite !length_append in Heq. cbn [String.length] in Heq. lia.
  - rewrite !append_cons in Heq. injection Heq as -> Heq. f_equal. now apply IH.
Qed.

Lemma to_int_nonnil (z : Z) : Z.to_int z <> Decimal.Pos Decimal.Nil /\ Z.to_int z <> Decimal.Neg Decimal.Nil.
Proof.
  destruct z as [| p | p]; cbn; split; try discriminate;
    intros [= H]; now apply DecimalPos.Unsigned.to_uint_nonnil in H.
Qed.

(** The decimal string determines the integer. *)
Lemma FormatInt_inj (a b : Z) : strconv.FormatInt a = strconv.FormatInt b -> a = b.
Proof.
  unfold strconv.FormatInt. intros Heq.
  pose proof (NilZero.isi (Z.to_int a) (proj1 (to_int_nonnil a)) (proj2 (to_int_nonnil a))) as Ha.
  pose proof (NilZero.isi (Z.to_int b) (proj1 (to_int_nonnil b)) (proj2 (to_int_nonnil b))) as Hb.
  rewrite Heq, Hb in Ha. injection Ha as Ha.
  rewrite <- (DecimalZ.of_to a), <- (DecimalZ.of_to b). now rewrite Ha.
Qed.

Lemma getHostForReplica_inj (f : cFactory) (i j : Z) :
  getHostForReplica f i = getHostForReplica f j -> i = j.
Proof.
  unfold getHostForReplica. intros Heq.
  do 2 apply (inj (String.append _)) in Heq.
  apply append_inv_tail in Heq. now apply FormatInt_inj.
Qed.

Lemma GetPodHostName_inj (c : MysqlCluster) (i j : Z) :
  GetPodHostName c i = GetPodHostName c j -> i = j.
Proof.
  unfold GetPodHostName. cbv zeta. intros Heq.
  apply append_inv_tail in Heq.
  do 2 apply (inj (String.append _)) in Heq. now apply FormatInt_inj.
Qed.

(** X11.  Distinct members have distinct host names: both
    [getHostForReplica] and [GetPodHostName] are injective in the index. *)
Theorem X11_hostnames_injective (f : cFactory) (c : MysqlCluster) (i j : Z) :
  (getHostForReplica f i = getHostForReplica f j -> i = j)
  /\ (GetPodHostName c i = GetPodHostName c j -> i = j).
Proof.
  split; [apply getHostForReplica_inj | apply GetPodHostName_inj].
Qed.

Lemma X11_hostnames_injective_witness :
  getHostForReplica (New (examples.db 3 ∅ ∅ ∅) "prod") 1
  <> getHostForReplica (New (examples.db 3 ∅ ∅ ∅) "prod") 10.
Proof.
  intros Heq.
  destruct (X11_hostnames_injective (New (examples.db 3 ∅ ∅ ∅) "prod")
              (examples.db 3 ∅ ∅ ∅) 1 10) as [Hinj _].
  specialize (Hinj Heq). discriminate Hinj.
Defined.

(** X12.  The name of a managed resource does not depend on the kind of
    resource, and two clusters share it only when they share their name. *)
Theorem X12_resource_names (c1 c2 : MysqlCluster) (kind1 kind2 : string) :
  GetNameForResource c1 kind1 = GetNameForResource c2 kind2 <-> Name c1 = Name c2.
Proof.
  unfold GetNameForResource, GetNameForResource_. split.
  - apply append_inv_tail.
  - now intros ->.
Qed.

(** X13.  The labels of a cluster are the two keys [app] and
    [mysql_cluster]; two clusters have the same labels exactly when they
    have the same name, whatever their namespaces are. *)
Theorem X13_labels (c1 c2 : MysqlCluster) :
  dom (GetLabels c1) = {["app"; "mysql_cluster"]}
  /\ GetLabels c1 !! "app" = Some "mysql-operator"
  /\ GetLabels c1 !! "mysql_cluster" = Some (Name c1)
  /\ (GetLabels c1 = GetLabels c2 <-> Name c1 = Name c2).
Proof.
  assert (Hname : forall c, GetLabels c !! "mysql_cluster" = Some (Name c))
    by (intros c; unfold GetLabels; apply lookup_insert_eq).
  split; [| split; [| split; [| split]]].
  - unfold GetLabels. rewrite !dom_insert_L, dom_empty_L. set_solver.
  - unfold GetLabels. now rewrite lookup_insert_ne by discriminate.
  - apply Hname.
  - intros Heq. pose proof (Hname c1) as H1. rewrite Heq, Hname in H1. congruence.
  - unfold GetLabels. now intros ->.
Qed.

End names_more.

(** ** More on topology resolution *)
Module topology_more.
Import options orc events effects v1alpha1 mysqlcluster run_facts topology_facts.

Lemma orc_calls_cons (a : action) (t : list action) :
  orc_calls (a :: t) = if is_orc_call a then a :: orc_calls t else orc_calls t.
Proof. unfold orc_calls. cbn [omap list_omap]. now destruct (is_orc_call a). Qed.

Lemma orc_calls_app (t1 t2 : list action) :
  orc_calls (t1 ++ t2) = (orc_calls t1 ++ orc_calls t2)%list.
Proof. apply omap_app. Qed.

Lemma warnings_logged_cons (a : action) (t : list action) :
  warnings_logged (a :: t)
  = match a with
    | AGlog Warning m => m :: warnings_logged t
    | _ => warnings_logged t
    end.
Proof. destruct a as [| | [] | | |]; reflexivity. Qed.

Lemma warnings_logged_app (t1 t2 : list action) :
  warnings_logged (t1 ++ t2) = (warnings_logged t1 ++ warnings_logged t2)%list.
Proof. apply omap_app. Qed.

Section Resolve.
Context {W : Type} (E : Env W).

(** The loop over the replicas only writes to the log, at verbosity 2. *)
Lemma chooseReplica_trace {A : Type} (replicas : list Instance) (host : string)
    (k : string -> prog A) (w : W) :
  exists logs : list action,
    trace E (chooseReplica replicas host k) w
    = (logs ++ trace E (k (default host (spec.last_qualifying replicas))) w)%list
    /\ orc_calls logs = [] /\ warnings_logged logs = [].
Proof.
  revert host. induction replicas as [| r replicas IH]; intros host.
  - exists []. repeat split; reflexivity.
  - cbn [chooseReplica]. rewrite last_qualifying_cons.
    change (Valid (SecondsBehindMaster r) && (Int64 (SecondsBehindMaster r) <=? 5))
      with (spec.qualifies r).
    destruct (spec.qualifies r).
    + rewrite trace_Glog. destruct (IH (Hostname (Key r))) as (logs & Ht & Ho & Hw).
      exists (AGlog InfoV2 ("[GetHealtySlaveHost]: Using orc we choses: "
                            +:+ Hostname (Key r)) :: logs).
      rewrite Ht, orc_calls_cons, warnings_logged_cons. cbn [is_orc_call].
      split; [| split; assumption].
      now destruct (spec.last_qualifying replicas).
    + destruct (IH host) as (logs & Ht & Ho & Hw).
      exists logs. rewrite Ht. split; [| split; assumption].
      now destruct (spec.last_qualifying replicas).
Qed.

End Resolve.

(** X14.  Each resolver asks the orchestrator at most once, and not at all
    without an orchestrator address ([GetHealtySlaveHost] also not without
    a ready node).  The two ask about different cluster names:
    [GetMasterHost] about [<name>.<namespace>], [GetHealtySlaveHost] about
    [<name>], and these are never the same string. *)
Theorem X14_orchestrator_queries {W : Type} (E : Env W) (w : W) (opt : Options)
    (c : MysqlCluster) :
  let uri := OrchestratorUri opt in
  let master := Name c +:+ "." +:+ Namespace c in
  orc_calls (trace E (GetMasterHost opt c) w)
  = (if len_is_0 uri then [] else [AMaster uri master (env_Master E uri master w).1])
  /\ orc_calls (trace E (GetHealtySlaveHost opt c) w)
     = (if len_is_0 uri || (ReadyNodes (Status c) <? 1) then []
        else [AReplicas uri (Name c) (env_ClusterOSCReplicas E uri (Name c) w).1])
  /\ master <> Name c.
Proof.
  cbv zeta. split; [| split].
  - unfold GetMasterHost, GetOrcUri.
    destruct (len_is_0 (OrchestratorUri opt)); cbn [negb]; [reflexivity |].
    rewrite trace_OrcMaster, orc_calls_cons. cbn [is_orc_call]. f_equal.
    destruct (env_Master E _ _ w).1; autorewrite with run; reflexivity.
  - unfold GetHealtySlaveHost, GetOrcUri.
    destruct (ReadyNodes (Status c) <? 1);
      [autorewrite with run; now rewrite orb_true_r |].
    rewrite orb_false_r.
    destruct (len_is_0 (OrchestratorUri opt)); cbn [negb];
      [autorewrite with run; reflexivity |].
    rewrite trace_Glog, trace_OrcClusterOSCReplicas, !orc_calls_cons.
    cbn [is_orc_call]. f_equal.
    destruct (env_ClusterOSCReplicas E _ _ w).1 as [replicas | err].
    + destruct (chooseReplica_trace E replicas
                  (GetPodHostName c (ReadyNodes (Status c) - 1))
                  (fun host => Glog InfoV2
                     ("[GetHealtySlaveHost]: The slave host is: " +:+ host) (Ret host))
                  (env_ClusterOSCReplicas E (OrchestratorUri opt) (Name c) w).2)
        as (logs & Ht & Ho & _).
      rewrite Ht, orc_calls_app, Ho. now autorewrite with run.
    + now autorewrite with run.
  - apply topology_claims.append_not_self. discriminate.
Qed.

(** X15.  With an orchestrator configured, [GetMasterHost] returns the host
    name the orchestrator reports, as it is, and logs no warning; when the
    query fails it logs one warning that names the cluster and the error,
    and returns the host name of member 0. *)
Theorem X15_GetMasterHost_configured {W : Type} (E : Env W) (w : W) (opt : Options)
    (c : MysqlCluster) :
  OrchestratorUri opt <> "" ->
  let master := Name c +:+ "." +:+ Namespace c in
  match (env_Master E (OrchestratorUri opt) master w).1 with
  | inl inst =>
      result E (GetMasterHost opt c) w = Hostname (Key inst)
      /\ warnings_logged (trace E (GetMasterHost opt c) w) = []
  | inr err =>
      result E (GetMasterHost opt c) w = GetPodHostName c 0
      /\ warnings_logged (trace E (GetMasterHost opt c) w)
         = ["Failed getting master for " +:+ master +:+ ": " +:+ err
            +:+ ", falling back to default."]
  end.
Proof.
  intros Huri. cbv zeta. unfold GetMasterHost, GetOrcUri.
  apply len_is_0_false in Huri. rewrite Huri. cbn [negb].
  rewrite result_OrcMaster, trace_OrcMaster, warnings_logged_cons.
  destruct (env_Master E _ _ w).1; autorewrite with run; split; reflexivity.
Qed.

(** The orchestrator reports a host from another cluster. *)
Lemma X15_GetMasterHost_configured_witness :
  let E := examples.env "up-to-date" None "" (inl (examples.replica "elsewhere" 0)) (inl []) in
  result E (GetMasterHost (examples.opts "http://orc") (examples.db 3 ∅ ∅ ∅)) tt = "elsewhere"
  /\ warnings_logged (trace E (GetMasterHost (examples.opts "http://orc")
                                 (examples.db 3 ∅ ∅ ∅)) tt) = [].
Proof.
  exact (X15_GetMasterHost_configured
           (examples.env "up-to-date" None "" (inl (examples.replica "elsewhere" 0)) (inl []))
           tt (examples.opts "http://orc") (examples.db 3 ∅ ∅ ∅) ltac:(discriminate)).
Defined.

(** X16.  Whatever the orchestrator answers, the host that
    [GetHealtySlaveHost] returns is its static default or the host name of
    an instance of the answer whose lag is valid and at most five
    seconds: an instance with an unknown lag is never chosen. *)
Theorem X16_GetHealtySlaveHost_provenance {W : Type} (E : Env W) (w : W) (opt : Options)
    (c : MysqlCluster) :
  let host := result E (GetHealtySlaveHost opt c) w in
  host = (if ReadyNodes (Status c) <? 1 then GetPodHostName c 0
          else GetPodHostName c (ReadyNodes (Status c) - 1))
  \/ exists (replicas : list Instance) (r : Instance),
       (env_ClusterOSCReplicas E (OrchestratorUri opt) (Name c) w).1 = inl replicas
       /\ r ∈ replicas
       /\ Valid (SecondsBehindMaster r) = true /\ Int64 (SecondsBehindMaster r) <= 5
       /\ host = Hostname (Key r).
Proof.
  cbv zeta.
  destruct (decide (OrchestratorUri opt = "")) as [Huri | Huri];
    [left; now apply GetHealtySlaveHost_unconfigured |].
  destruct (Z.ltb_spec (ReadyNodes (Status c)) 1) as [Hready | Hready];
    [left; now apply GetHealtySlaveHost_no_ready |].
  destruct (GetHealtySlaveHost_configured E opt c w Huri Hready) as [Hres _].
  rewrite Hres.
  destruct (env_ClusterOSCReplicas E (OrchestratorUri opt) (Name c) w).1
    as [replicas | err]; [| now left].
  destruct (spec.last_qualifying replicas) as [h |] eqn:Hlast; [| now left].
  right. apply topology_claims.last_qualifying_Some in Hlast
    as (before & r & after & -> & Hq & <- & _).
  exists (before ++ r :: after)%list, r. unfold spec.qualifies in Hq.
  apply andb_true_iff in Hq as [Hvalid Hlag]. apply Z.leb_le in Hlag.
  repeat split; try assumption. apply elem_of_app. right. constructor.
Qed.

(** X17.  Without a ready node (the count may also be negative)
    [GetHealtySlaveHost] logs the warning that no node is ready, does not
    touch the orchestrator even when one is configured, and returns the
    host name of member 0. *)
Theorem X17_GetHealtySlaveHost_no_ready {W : Type} (E : Env W) (w : W) (opt : Options)
    (c : MysqlCluster) :
  ReadyNodes (Status c) < 1 ->
  result E (GetHealtySlaveHost opt c) w = GetPodHostName c 0
  /\ warnings_logged (trace E (GetHealtySlaveHost opt c) w)
     = ["[GetHealtySlaveHost]: no ready nodes yet!"]
  /\ orc_calls (trace E (GetHealtySlaveHost opt c) w) = [].
Proof.
  intros Hready. unfold GetHealtySlaveHost.
  destruct (Z.ltb_spec (ReadyNodes (Status c)) 1); [| lia].
  autorewrite with run. repeat split.
Qed.

Lemma X17_GetHealtySlaveHost_no_ready_witness :
  let E := examples.env "up-to-date" None "" (inr "no master")
             (inl [examples.replica "db-mysql-1.db-mysql.prod" 2]) in
  result E (GetHealtySlaveHost (examples.opts "http://orc") (examples.db (-1) ∅ ∅ ∅)) tt
  = GetPodHostName (examples.db (-1) ∅ ∅ ∅) 0
  /\ warnings_logged (trace E (GetHealtySlaveHost (examples.opts "http://orc")
                                 (examples.db (-1) ∅ ∅ ∅)) tt)
     = ["[GetHealtySlaveHost]: no ready nodes yet!"]
  /\ orc_calls (trace E (GetHealtySlaveHost (examples.opts "http://orc")
                           (examples.db (-1) ∅ ∅ ∅)) tt) = [].
Proof.
  apply (X17_GetHealtySlaveHost_no_ready
           (examples.env "up-to-date" None "" (inr "no master")
              (inl [examples.replica "db-mysql-1.db-mysql.prod" 2]))
           tt (examples.opts "http://orc") (examples.db (-1) ∅ ∅ ∅)).
  cbn. lia.
Defined.

End topology_more.

(** ** More on the reconciliation loop *)
Module sync_more.
Import options orc events effects v1alpha1 mysqlcluster run_facts topology_facts sync_facts.
Import sync_claims topology_more names_more.

Lemma events_of_cons (a : action) (t : list action) :
  events_of (a :: t)
  = match a with
    | AEvent ty r m => (ty, r, m) :: events_of t
    | _ => events_of t
    end.
Proof. now destruct a. Qed.

Lemma no_orc_call_orc_calls (t : list action) :
  Forall (fun a => is_orc_call a = false) t -> orc_calls t = [].
Proof.
  induction 1 as [| a t Ha _ IH]; [reflexivity |].
  now rewrite orc_calls_cons, Ha.
Qed.

Lemma fold_append {A : Type} (l rs : list A) :
  fold_left (fun rs o => (rs ++ [o])%list) l rs = (rs ++ l)%list.
Proof.
  revert rs. induction l as [| o l IH]; intros rs; cbn [fold_left].
  - now rewrite app_nil_r.
  - rewrite IH, <- app_assoc. reflexivity.
Qed.

Section Sync.
Context {W : Type} (E : Env W).
Variable MysqlPort : Z.
Variable opt : Options.

(** The events of the component loop, call by call. *)
Lemma syncComponents_events (comps : list component) (rest : prog (option string)) :
  (forall w1, events_of (trace E rest w1) = [] /\ sync_calls (trace E rest w1) = []) ->
  forall w,
    events_of (trace E (syncComponents comps rest) w)
    = omap (fun p => event_for p.1 p.2)
        (zip comps (map snd (sync_calls (trace E (syncComponents comps rest) w)))).
Proof.
  intros Hrest. induction comps as [| comp comps IH]; intros w.
  - cbn [syncComponents]. now destruct (Hrest w) as [-> _].
  - cbn [syncComponents]. rewrite trace_CallSyncFn.
    destruct (env_syncFn E (syncFn comp) w) as [[state [e |]] w0]; cbn [fst snd].
    + autorewrite with run. now destruct comps.
    + rewrite trace_Glog, sync_calls_cons, events_of_cons, sync_calls_cons, events_of_cons.
      cbn [map snd zip zip_with omap list_omap]. unfold event_for at 1. cbn [fst snd].
      destruct (String.eqb state statusCreated || String.eqb state statusUpdated).
      * rewrite trace_RecEvent, events_of_cons, sync_calls_cons. f_equal. apply IH.
      * apply IH.
Qed.

(** The warnings that the component loop logs. *)
Lemma syncComponents_warnings (comps : list component) (rest : prog (option string)) (w : W) :
  (exists ts w1,
      trace E (syncComponents comps rest) w = (ts ++ trace E rest w1)%list
      /\ result E (syncComponents comps rest) w = result E rest w1
      /\ warnings_logged ts = []
      /\ Forall (fun a => is_orc_call a = false) ts)
  \/ (exists comp st e,
        comp ∈ comps
        /\ In (ASyncFn (syncFn comp) (st, Some e)) (trace E (syncComponents comps rest) w)
        /\ result E (syncComponents comps rest) w = Some (syncFailed comp e)
        /\ warnings_logged (trace E (syncComponents comps rest) w)
           = ["[" +:+ alias comp +:+ "]: failed syncing " +:+ name comp
              +:+ ": %!(EXTRA string=" +:+ e +:+ ")"]).
Proof.
  revert w. induction comps as [| comp comps IH]; intros w.
  - left. exists [], w. repeat split; constructor.
  - cbn [syncComponents]. rewrite trace_CallSyncFn, result_CallSyncFn.
    destruct (env_syncFn E (syncFn comp) w) as [[state [e |]] w0]; cbn [fst snd].
    + right. exists comp, state, e. autorewrite with run.
      repeat split; [constructor | now left].
    + rewrite trace_Glog, result_Glog.
      set (logged := AGlog InfoV2 _).
      assert (Hstep :
        exists ev : list action,
          trace E (if String.eqb state statusCreated || String.eqb state statusUpdated
                   then RecEvent EventNormal (reasonUpdated comp) ""
                          (syncComponents comps rest)
                   else syncComponents comps rest) w0
          = (ev ++ trace E (syncComponents comps rest) w0)%list
          /\ result E (if String.eqb state statusCreated || String.eqb state statusUpdated
                       then RecEvent EventNormal (reasonUpdated comp) ""
                              (syncComponents comps rest)
                       else syncComponents comps rest) w0
             = result E (syncComponents comps rest) w0
          /\ warnings_logged ev = []
          /\ Forall (fun a => is_orc_call a = false) ev).
      { destruct (String.eqb state statusCreated || String.eqb state statusUpdated).
        - exists [AEvent EventNormal (reasonUpdated comp) ""].
          rewrite trace_RecEvent, result_RecEvent. repeat split; repeat constructor.
        - exists []. repeat split; constructor. }
      destruct Hstep as (ev & Hev & Hr & Hw & Ho). rewrite Hev, Hr.
      destruct (IH w0) as [(ts & w1 & Ht & Hres & Hlog & Horc)
                          | (comp' & st & e & Hc & Hcall & Hres & Hlog)].
      * left. exists (ASyncFn (syncFn comp) (state, None) :: logged :: ev ++ ts)%list, w1.
        rewrite Ht. repeat split; try assumption.
        -- cbn [app]. now rewrite <- app_assoc.
        -- subst logged. rewrite !warnings_logged_cons, warnings_logged_app, Hw, Hlog.
           reflexivity.
        -- repeat constructor. now apply Forall_app.
      * right. exists comp', st, e. repeat split; try assumption.
        -- now constructor.
        -- right. right. apply in_or_app. now right.
        -- subst logged. rewrite !warnings_logged_cons, warnings_logged_app, Hw, Hlog.
           reflexivity.
Qed.

(** The registration loop logs one warning for each [Discover] that fails. *)
Lemma discoverNodes_warnings (f : cFactory) (uri : string) (n : nat) (i : Z) (w : W) :
  warnings_logged (trace E (discoverNodes MysqlPort f uri n i (Ret None)) w)
  = omap (fun a => match a with
                   | ADiscover _ host _ (Some e) =>
                       Some ("Failed to register " +:+ host +:+ " with orchestrator: " +:+ e)
                   | _ => None
                   end)
      (trace E (discoverNodes MysqlPort f uri n i (Ret None)) w).
Proof.
  revert i w. induction n as [| n IH]; intros i w; [reflexivity |].
  cbn [discoverNodes]. rewrite trace_OrcDiscover.
  destruct (env_Discover E uri (getHostForReplica f i) MysqlPort w) as [[e |] w0];
    cbn [fst snd].
  - rewrite trace_Glog, !warnings_logged_cons. cbn [omap list_omap]. f_equal. apply IH.
  - rewrite warnings_logged_cons. cbn [omap list_omap]. apply IH.
Qed.

Lemma registration_views (f : cFactory) (w : W) :
  events_of (trace E (registration MysqlPort opt f) w) = []
  /\ sync_calls (trace E (registration MysqlPort opt f) w) = [].
Proof.
  split; [| apply (registration_run E MysqlPort opt f w)].
  unfold registration.
  destruct (negb (len_is_0 (GetOrcUri opt (Spec (cluster f))))); [| reflexivity].
  generalize 0. generalize (Z.to_nat (ReadyNodes (Status (cluster f)))).
  intros n. revert w. induction n as [| n IH]; intros w i; [reflexivity |].
  cbn [discoverNodes]. rewrite trace_OrcDiscover.
  destruct (env_Discover E _ _ MysqlPort w) as [[e |] w0]; cbn [fst snd];
    rewrite ?trace_Glog, !events_of_cons; apply IH.
Qed.

(** A run of [Sync] that returns an error has made no orchestrator call. *)
Lemma Sync_failed_no_orc_call (f : cFactory) (w : W) :
  result E (Sync MysqlPort opt f) w <> None ->
  Forall (fun a => is_orc_call a = false) (trace E (Sync MysqlPort opt f) w).
Proof.
  rewrite Sync_eq.
  destruct (syncComponents_run E (getComponents f) (registration MysqlPort opt f) w)
    as [(ts & w1 & _ & Hr & _) | (k0 & comp & good & st0 & e0 & _ & _ & _ & _ & _ & _ & Horc)].
  - rewrite Hr. destruct (registration_run E MysqlPort opt f w1) as (-> & _). congruence.
  - intros _. exact Horc.
Qed.

(** The [Discover] calls of a run: none, or all hosts. *)
Lemma Sync_discover_calls (f : cFactory) (w : W) :
  discover_calls (trace E (Sync MysqlPort opt f) w)
  = match result E (Sync MysqlPort opt f) w with
    | Some _ => []
    | None =>
        if len_is_0 (OrchestratorUri opt) then []
        else map (fun h => (OrchestratorUri opt, h, MysqlPort))
               (hosts_from f 0 (Z.to_nat (ReadyNodes (Status (cluster f)))))
    end.
Proof.
  destruct (result E (Sync MysqlPort opt f) w) as [err |] eqn:Hres.
  - apply no_orc_call_no_discover, Sync_failed_no_orc_call. congruence.
  - revert Hres. rewrite Sync_eq.
    destruct (syncComponents_run E (getComponents f) (registration MysqlPort opt f) w)
      as [(ts & w1 & Ht & Hr & _ & _ & _ & Horc)
         | (k0 & comp & good & st0 & e0 & _ & _ & _ & _ & _ & Hr & _)];
      [| congruence].
    intros _. destruct (registration_run E MysqlPort opt f w1) as (_ & _ & _ & Hd).
    now rewrite Ht, discover_calls_app, Hd, (no_orc_call_no_discover ts Horc).
Qed.

(** The sync calls of a run follow the fixed order, from its start. *)
Lemma sync_calls_prefix (f : cFactory) (w : W) :
  exists n : nat,
    map fst (sync_calls (trace E (Sync MysqlPort opt f) w))
    = take n (map syncFn (getComponents f)).
Proof.
  rewrite Sync_eq.
  destruct (syncComponents_run E (getComponents f) (registration MysqlPort opt f) w)
    as [(ts & w1 & Ht & _ & Hfst & _)
       | (k0 & comp & good & st0 & e0 & Hk0 & Hcalls & Hfst & _)].
  - exists 5%nat. destruct (registration_run E MysqlPort opt f w1) as (_ & Hs & _).
    now rewrite Ht, sync_calls_app, Hs, app_nil_r, Hfst.
  - exists (S k0). rewrite Hcalls, map_app, Hfst. cbn [map fst].
    rewrite <- (fmap_take syncFn). change (fmap syncFn) with (map syncFn).
    erewrite take_S_r by eassumption. now rewrite map_app.
Qed.

End Sync.

Lemma length_omap_le {A B : Type} (g : A -> option B) (l : list A) :
  (length (omap g l) <= length l)%nat.
Proof.
  induction l as [| a l IH]; cbn [omap list_omap length]; [lia |].
  destruct (g a); cbn [length]; lia.
Qed.

Lemma NoDup_map_inj {A B : Type} (g : A -> B) (l : list A) :
  (forall x y, g x = g y -> x = y) -> NoDup l -> NoDup (map g l).
Proof.
  intros Hinj. induction 1 as [| x l Hx Hl IH]; cbn [map]; constructor; [| assumption].
  rewrite list_elem_of_In, in_map_iff. intros (y & Hy & Hin).
  apply Hinj in Hy as ->. apply Hx. now apply list_elem_of_In.
Qed.

(** X18.  The events of a run of [Sync] are the events of its sync calls,
    in order: a failed call records one warning with the failure reason of
    its component and the wrapped error, a call that returns [created] or
    [updated] records one normal event with the update reason and an empty
    message, and any other call records nothing; the registration records
    no event. *)
Theorem X18_Sync_events {W : Type} (E : Env W) (w : W) (MysqlPort : Z) (opt : Options)
    (f : cFactory) :
  let t := trace E (Sync MysqlPort opt f) w in
  events_of t
  = omap (fun p => event_for p.1 p.2) (zip (getComponents f) (map snd (sync_calls t)))
  /\ (length (events_of t) <= length (sync_calls t) <= 5)%nat.
Proof.
  cbv zeta.
  assert (Hev : events_of (trace E (Sync MysqlPort opt f) w)
                = omap (fun p => event_for p.1 p.2)
                    (zip (getComponents f)
                       (map snd (sync_calls (trace E (Sync MysqlPort opt f) w))))).
  { rewrite Sync_eq. apply syncComponents_events. apply registration_views. }
  split; [exact Hev |]. split.
  - rewrite Hev. etransitivity; [apply length_omap_le |].
    rewrite length_zip, length_map. lia.
  - destruct (sync_calls_prefix E MysqlPort opt f w) as (n & Hn).
    rewrite <- (length_map fst), Hn, length_take. cbn. lia.
Qed.

(** X19.  [Sync] returns nil exactly when no sync call of the run failed,
    and then all five components were synced; in every run the sync calls
    are an initial part of the fixed order, so that no sync function is
    called twice. *)
Theorem X19_Sync_result {W : Type} (E : Env W) (w : W) (MysqlPort : Z) (opt : Options)
    (f : cFactory) :
  let t := trace E (Sync MysqlPort opt f) w in
  (result E (Sync MysqlPort opt f) w = None <-> Forall (fun x => x.2.2 = None) (sync_calls t))
  /\ (result E (Sync MysqlPort opt f) w = None ->
      map fst (sync_calls t) = map syncFn (getComponents f))
  /\ (exists n : nat, map fst (sync_calls t) = take n (map syncFn (getComponents f)))
  /\ NoDup (map fst (sync_calls t)).
Proof.
  cbv zeta.
  assert (Hiff : result E (Sync MysqlPort opt f) w = None
                 <-> Forall (fun x => x.2.2 = None)
                       (sync_calls (trace E (Sync MysqlPort opt f) w))).
  { split; [| apply Sync_all_synced].
    rewrite Sync_eq.
    destruct (syncComponents_run E (getComponents f) (registration MysqlPort opt f) w)
      as [(ts & w1 & Ht & _ & _ & Hok & _)
         | (k0 & comp & good & st0 & e0 & _ & _ & _ & _ & _ & Hr & _)];
      [| congruence].
    intros _. destruct (registration_run E MysqlPort opt f w1) as (_ & Hs & _).
    now rewrite Ht, sync_calls_app, Hs, app_nil_r. }
  split; [exact Hiff |]. split; [| split].
  - intros Hres. apply Hiff in Hres. now apply Sync_all_synced.
  - apply sync_calls_prefix.
  - destruct (sync_calls_prefix E MysqlPort opt f w) as (n & ->).
    eapply sublist_NoDup; [| apply sublist_take].
    cbn. repeat constructor; rewrite ?elem_of_cons, ?elem_of_nil; intuition discriminate.
Qed.

(** X20.  A run of [Sync] that returns an error makes no call to the
    orchestrator: after a failed component no host is registered. *)
Theorem X20_no_registration_after_failure {W : Type} (E : Env W) (w : W) (MysqlPort : Z)
    (opt : Options) (f : cFactory) :
  result E (Sync MysqlPort opt f) w <> None ->
  orc_calls (trace E (Sync MysqlPort opt f) w) = [].
Proof.
  intros Hres. now apply no_orc_call_orc_calls, Sync_failed_no_orc_call.
Qed.

(** The last component fails, with an orchestrator and three ready nodes. *)
Lemma X20_no_registration_after_failure_witness :
  orc_calls
    (trace (examples.env "updated" (Some (syncBackupCronJob, "forbidden")) ""
              (inr "no master") (inr "no replicas"))
       (Sync 3306 (examples.opts "http://orc") (New (examples.db 3 ∅ ∅ ∅) "prod")) tt)
  = [].
Proof.
  apply (X20_no_registration_after_failure
           (examples.env "updated" (Some (syncBackupCronJob, "forbidden")) ""
              (inr "no master") (inr "no replicas"))
           tt 3306 (examples.opts "http://orc") (New (examples.db 3 ∅ ∅ ∅) "prod")).
  vm_compute. discriminate.
Defined.

(** X21.  The hosts that a run of [Sync] registers are none at all or the
    hosts of the members 0 .. [ReadyNodes] - 1, each once: never a part of
    them, never a host twice; with a ready count of zero or below nothing is
    registered. *)
Theorem X21_registered_hosts {W : Type} (E : Env W) (w : W) (MysqlPort : Z)
    (opt : Options) (f : cFactory) :
  let t := trace E (Sync MysqlPort opt f) w in
  let hosts := map (fun j : nat => getHostForReplica f (Z.of_nat j))
                 (seq 0 (Z.to_nat (ReadyNodes (Status (cluster f))))) in
  (discover_calls t = []
   \/ discover_calls t = map (fun h => (OrchestratorUri opt, h, MysqlPort)) hosts)
  /\ NoDup (discover_calls t)
  /\ (ReadyNodes (Status (cluster f)) <= 0 -> discover_calls t = []).
Proof.
  cbv zeta.
  assert (Hhosts : hosts_from f 0 (Z.to_nat (ReadyNodes (Status (cluster f))))
                   = map (fun j : nat => getHostForReplica f (Z.of_nat j))
                       (seq 0 (Z.to_nat (ReadyNodes (Status (cluster f)))))).
  { unfold hosts_from. apply map_ext. intros j. f_equal. }
  rewrite Sync_discover_calls, Hhosts.
  destruct (result E (Sync MysqlPort opt f) w) as [err |];
    [repeat split; [now left | constructor] |].
  destruct (len_is_0 (OrchestratorUri opt));
    [repeat split; [now left | constructor] |].
  split; [now right |]. split.
  - rewrite map_map. apply NoDup_map_inj; [| apply NoDup_seq].
    intros x y [= Heq]. apply getHostForReplica_inj in Heq. lia.
  - intros Hready. replace (Z.to_nat (ReadyNodes (Status (cluster f)))) with 0%nat by lia.
    reflexivity.
Qed.

Lemma X21_registered_hosts_witness :
  discover_calls
    (trace (examples.env "up-to-date" None "" (inr "no master") (inr "no replicas"))
       (Sync 3306 (examples.opts "http://orc") (New (examples.db (-2) ∅ ∅ ∅) "prod")) tt)
  = [].
Proof.
  destruct (X21_registered_hosts
              (examples.env "up-to-date" None "" (inr "no master") (inr "no replicas"))
              tt 3306 (examples.opts "http://orc") (New (examples.db (-2) ∅ ∅ ∅) "prod"))
    as (_ & _ & Hnone).
  apply Hnone. cbn. lia.
Defined.

(** X22.  What [Sync] logs as warnings: a run that returns nil logs one
    warning for each [Discover] call that failed, naming the host and the
    error, and nothing else; a run that returns an error logs exactly one
    warning, for the component whose sync call failed. *)
Theorem X22_Sync_warnings {W : Type} (E : Env W) (w : W) (MysqlPort : Z)
    (opt : Options) (f : cFactory) :
  let t := trace E (Sync MysqlPort opt f) w in
  match result E (Sync MysqlPort opt f) w with
  | None =>
      warnings_logged t
      = omap (fun a => match a with
                       | ADiscover _ host _ (Some e) =>
                           Some ("Failed to register " +:+ host
                                 +:+ " with orchestrator: " +:+ e)
                       | _ => None
                       end) t
  | Some err =>
      exists comp st e,
        comp ∈ getComponents f
        /\ In (ASyncFn (syncFn comp) (st, Some e)) t
        /\ err = name comp +:+ " sync failed: " +:+ e
        /\ warnings_logged t
           = ["[" +:+ alias comp +:+ "]: failed syncing " +:+ name comp
              +:+ ": %!(EXTRA string=" +:+ e +:+ ")"]
  end.
Proof.
  cbv zeta. rewrite Sync_eq.
  destruct (syncComponents_warnings E (getComponents f) (registration MysqlPort opt f) w)
    as [(ts & w1 & Ht & Hr & Hlog & Horc) | (comp & st & e & Hc & Hcall & Hr & Hlog)].
  - rewrite Hr. destruct (registration_run E MysqlPort opt f w1) as (-> & _).
    rewrite Ht, warnings_logged_app, omap_app, Hlog.
    assert (Hnone : omap (fun a => match a with
                                   | ADiscover _ host _ (Some e) =>
                                       Some ("Failed to register " +:+ host
                                             +:+ " with orchestrator: " +:+ e)
                                   | _ => None
                                   end) ts = []).
    { clear -Horc. induction Horc as [| a ts Ha _ IH]; [reflexivity |].
      cbn [omap list_omap]. destruct a; try discriminate Ha; exact IH. }
    rewrite Hnone. cbn [app]. unfold registration.
    destruct (negb (len_is_0 (GetOrcUri opt (Spec (cluster f))))); [| reflexivity].
    apply discoverNodes_warnings.
  - rewrite Hr. exists comp, st, e. auto.
Qed.

Section OwnerReferences.
Variable SchemeGroupVersion_String : string.
Variable MysqlClusterKind : string.
Variable UID : MysqlCluster -> string.

(** X23.  [getOwnerReferences] returns the reference to the cluster, marked
    as controller, followed by all the references it is given, in their
    order; nothing is dropped, reordered or merged. *)
Theorem X23_getOwnerReferences (f : cFactory) (ors : list (list OwnerReference)) :
  getOwnerReferences SchemeGroupVersion_String MysqlClusterKind UID f ors
  = AsOwnerReference SchemeGroupVersion_String MysqlClusterKind UID (cluster f)
    :: concat ors
  /\ Controller (AsOwnerReference SchemeGroupVersion_String MysqlClusterKind UID (cluster f))
     = Some true
  /\ RefName (AsOwnerReference SchemeGroupVersion_String MysqlClusterKind UID (cluster f))
     = Name (cluster f).
Proof.
  split; [| split; reflexivity].
  unfold getOwnerReferences. cbv zeta.
  transitivity
    ([AsOwnerReference SchemeGroupVersion_String MysqlClusterKind UID (cluster f)]
     ++ concat ors)%list; [| reflexivity].
  generalize [AsOwnerReference SchemeGroupVersion_String MysqlClusterKind UID (cluster f)].
  intros rs. revert rs. induction ors as [| or ors IH]; intros rs; cbn [fold_left concat].
  - now rewrite app_nil_r.
  - rewrite fold_append, IH, <- app_assoc. reflexivity.
Qed.

End OwnerReferences.

End sync_more.
